(** * Artifact service and system tool usage of bee-api: a shallow embedding

    The development follows [src/artifacts/artifacts.service.ts] and
    [src/tools/entities/tool-usages/system-usage.entity.ts].

    - JavaScript values that may be missing are kept three-valued
      ([undefined], [null], a value), because the service tests them with
      [===], [??] and truthiness, which treat the three differently.
    - Transfer objects are JavaScript object literals: finite maps from
      property names to values, built by successive property writes, so that
      the absence of a property is a statement about the map.
    - The service functions run against a [World]: the collections behind the
      repositories, the bytes [crypto.randomBytes] is going to deliver, and
      the clock.  Each function is a state transformer that also returns
      either its result or the [APIError] it throws. *)

From Stdlib Require Import ZArith NArith Ascii String List Lia.
From Stdlib Require Import Strings.Byte.
From stdpp Require Import base option list strings gmap fin_maps stringmap.

Local Open Scope string_scope.

(** ** JavaScript optional values *)

Inductive js (A : Type) : Type :=
| undefined : js A
| null : js A
| val (a : A) : js A.
Arguments undefined {A}.
Arguments null {A}.
Arguments val {A} a.

#[global] Instance js_eq_dec {A} `{EqDecision A} : EqDecision (js A).
Proof. solve_decision. Defined.

(** [x ?? d]: the default replaces both [undefined] and [null]. *)
Definition nullish {A} (x : js A) (d : A) : A :=
  match x with
  | val a => a
  | undefined | null => d
  end.

(** Truthiness of an optional string: [undefined], [null] and the empty
    string are falsy. *)
Definition truthy (x : js string) : bool :=
  match x with
  | val s => if decide (s = "") then false else true
  | undefined | null => false
  end.

(** [x === true] and [x === false] on an optional boolean. *)
Definition strict_true (x : js bool) : bool :=
  match x with val true => true | _ => false end.

Definition strict_false (x : js bool) : bool :=
  match x with val false => true | _ => false end.

(** ** [Buffer.toString('base64url')] *)

Module Base64Url.

Definition alphabet : list ascii :=
  list_ascii_of_string
    "ABCDEFGHIJKLMNOPQRSTUVWXYZabcdefghijklmnopqrstuvwxyz0123456789-_".

Definition sextet_char (i : N) : ascii :=
  nth (N.to_nat i) alphabet "A"%char.

Fixpoint index_from (c : ascii) (l : list ascii) (i : N) : option N :=
  match l with
  | [] => None
  | x :: l' => if Ascii.eqb c x then Some i else index_from c l' (N.succ i)
  end.

Definition sextet_index (c : ascii) : option N := index_from c alphabet 0%N.

(** The four sextets of a full group of three bytes, and the shorter tails
    of a group of one or two bytes (the url variant writes no padding). *)
Definition s0 (a : N) : N := (a / 4)%N.
Definition s1 (a b : N) : N := ((a mod 4) * 16 + b / 16)%N.
Definition s2 (b c : N) : N := ((b mod 16) * 4 + c / 64)%N.
Definition s3 (c : N) : N := (c mod 64)%N.

Fixpoint encode (bs : list byte) : string :=
  match bs with
  | [] => ""
  | [a] =>
      let a := Byte.to_N a in
      String (sextet_char (s0 a)) (String (sextet_char (s1 a 0)) "")
  | [a; b] =>
      let a := Byte.to_N a in
      let b := Byte.to_N b in
      String (sextet_char (s0 a))
        (String (sextet_char (s1 a b)) (String (sextet_char (s2 b 0)) ""))
  | a :: b :: c :: rest =>
      let a := Byte.to_N a in
      let b := Byte.to_N b in
      let c := Byte.to_N c in
      String (sextet_char (s0 a))
        (String (sextet_char (s1 a b))
           (String (sextet_char (s2 b c))
              (String (sextet_char (s3 c)) (encode rest))))
  end.

Definition url_safe (c : ascii) : bool :=
  match sextet_index c with Some _ => true | None => false end.

Fixpoint all_url_safe (s : string) : bool :=
  match s with
  | EmptyString => true
  | String c s' => url_safe c && all_url_safe s'
  end.

End Base64Url.

(** ** Values and object literals *)

Inductive Value : Type :=
| VUndefined
| VNull
| VString (s : string)
| VNumber (n : Z)
| VObject (m : gmap string string).

Definition of_js {A} (inj : A -> Value) (x : js A) : Value :=
  match x with
  | undefined => VUndefined
  | null => VNull
  | val a => inj a
  end.

(** An object literal [{ k1: v1, ..., kn: vn }] writes its properties from
    left to right into the object built so far; [{ ...o, k1: v1, ... }]
    starts from the own properties of [o]. *)
Definition write (o : gmap string Value) (kv : string * Value) : gmap string Value :=
  <[kv.1 := kv.2]> o.

Definition literal (base : gmap string Value) (props : list (string * Value))
  : gmap string Value :=
  foldl write base props.

(** Spreading [undefined] or [null] contributes no property. *)
Definition spread (o : js (gmap string Value)) : gmap string Value :=
  nullish o ∅.

(** ** Errors *)

Variant APIErrorCode : Set := NOT_FOUND | INVALID_INPUT.

Record APIError : Type := mkAPIError { message : string; code : APIErrorCode }.

Inductive Outcome (A : Type) : Type :=
| Ok (a : A)
| Throw (e : APIError).
Arguments Ok {A} a.
Arguments Throw {A} e.

(** ** Entities *)

(** Modelled from the spec: the declaration of the enum [ArtifactType] is not
    part of the sources; the spec gives a discriminator with the one
    supported variant APP, serialized as "app".  At run time the
    discriminator is the string stored with the record. *)
Definition ArtifactType : Type := string.
Definition APP : ArtifactType := "app".

Module Thread.
Record t : Type := mk { id : string }.
End Thread.

Module Message.
(** [thread] holds the id of the referenced thread. *)
Record t : Type := mk { id : string; thread : string }.
End Message.

Module Artifact.
(** Modelled from the spec: the entity classes [Artifact] and [AppArtifact]
    are not part of the sources; the fields are those of the spec's data
    model, and [thread] and [message] hold the ids of the references. *)
Record t : Type := mk {
  id : string;
  type : ArtifactType;
  thread : string;
  message : string;
  metadata : js (gmap string string);
  name : js string;
  description : js string;
  accessSecret : js string;
  createdAt : Z;
  deletedAt : js Z;
  sourceCode : js string
}.

Definition set_metadata (v : js (gmap string string)) (a : t) : t :=
  mk (id a) (type a) (thread a) (message a) v (name a) (description a)
     (accessSecret a) (createdAt a) (deletedAt a) (sourceCode a).

Definition set_name (v : js string) (a : t) : t :=
  mk (id a) (type a) (thread a) (message a) (metadata a) v (description a)
     (accessSecret a) (createdAt a) (deletedAt a) (sourceCode a).

Definition set_description (v : js string) (a : t) : t :=
  mk (id a) (type a) (thread a) (message a) (metadata a) (name a) v
     (accessSecret a) (createdAt a) (deletedAt a) (sourceCode a).

Definition set_accessSecret (v : js string) (a : t) : t :=
  mk (id a) (type a) (thread a) (message a) (metadata a) (name a)
     (description a) v (createdAt a) (deletedAt a) (sourceCode a).

Definition set_deletedAt (v : js Z) (a : t) : t :=
  mk (id a) (type a) (thread a) (message a) (metadata a) (name a)
     (description a) (accessSecret a) (createdAt a) v (sourceCode a).

Definition is_deleted (a : t) : bool :=
  match deletedAt a with
  | val _ => true
  | undefined | null => false
  end.
End Artifact.

(** ** Serialization: [toSharedDto] and [toDto] *)

(** [dayjs(d).unix()]: whole seconds of a time given in milliseconds. *)
Definition unix (ms : Z) : Z := (ms / 1000)%Z.

(** [`${x}`] on an optional string. *)
Definition interpolate (x : js string) : string :=
  match x with
  | val s => s
  | undefined => "undefined"
  | null => "null"
  end.

(** The switch has the single case APP and no default: for every other
    discriminator the function falls off its end and yields [undefined]. *)
Definition toSharedDto (artifact : Artifact.t) : js (gmap string Value) :=
  let dto :=
    literal ∅
      [ ("id", VString (Artifact.id artifact));
        ("object", VString "artifact.shared");
        ("type", VString (Artifact.type artifact));
        ("metadata", VObject (nullish (Artifact.metadata artifact) ∅));
        ("created_at", VNumber (unix (Artifact.createdAt artifact)));
        ("source_code", of_js VString (Artifact.sourceCode artifact));
        ("share_url",
          VString
            (if truthy (Artifact.accessSecret artifact)
             then "/v1/artifacts/" +:+ Artifact.id artifact +:+ "/shared?secret="
                    +:+ interpolate (Artifact.accessSecret artifact)
             else ""));
        ("name", of_js VString (Artifact.name artifact));
        ("description", VString (nullish (Artifact.description artifact) "")) ] in
  if decide (Artifact.type artifact = APP)
  then val (literal dto
              [ ("source_code", of_js VString (Artifact.sourceCode artifact)) ])
  else undefined.

Definition toDto (artifact : Artifact.t) : gmap string Value :=
  literal (spread (toSharedDto artifact))
    [ ("object", VString "artifact");
      ("thread_id", VString (Artifact.thread artifact));
      ("message_id", VString (Artifact.message artifact)) ].

(** ** The world behind the service *)

(** [threads] and [messages] are the records the caller's lookups by id can
    reach.  [artifacts] holds every stored artifact record, soft-deleted ones
    included, keyed by primary key.  [principalAccess] is the filter of that
    name for the request's principal, as the ids of the artifacts it lets
    through: ownership is fixed at creation and no service function moves
    it.  [entropy] lists the
    bytes [crypto.randomBytes] delivers, [consumed] counts those already
    handed out, and [now] is the clock in milliseconds. *)
Record World : Type := mkWorld {
  threads : gmap string Thread.t;
  messages : gmap string Message.t;
  artifacts : gmap string Artifact.t;
  principalAccess : string -> bool;
  entropy : nat -> byte;
  consumed : nat;
  now : Z
}.

Definition set_artifacts (m : gmap string Artifact.t) (w : World) : World :=
  mkWorld (threads w) (messages w) m (principalAccess w) (entropy w)
          (consumed w) (now w).

Definition set_consumed (n : nat) (w : World) : World :=
  mkWorld (threads w) (messages w) (artifacts w) (principalAccess w)
          (entropy w) n (now w).

(** A service call transforms the world and either returns or throws. *)
Definition Service (A : Type) : Type := World -> Outcome A * World.

Definition ret {A} (a : A) : Service A := fun w => (Ok a, w).

Definition throw {A} (e : APIError) : Service A := fun w => (Throw e, w).

Definition bind {A B} (m : Service A) (k : A -> Service B) : Service B :=
  fun w =>
    match m w with
    | (Ok a, w') => k a w'
    | (Throw e, w') => (Throw e, w')
    end.

Notation "x <- m ;; k" := (bind m (fun x => k))
  (at level 100, m at next level, right associativity).
Notation "m ;;; k" := (bind m (fun _ => k))
  (at level 100, right associativity).

(** ** Collaborators *)

(** Modelled from the spec: the handler that [findOneOrFail] raises is
    configured outside the sources; the spec says that a failed lookup fails
    with NotFound. *)
Definition notFound (entity : string) : APIError :=
  mkAPIError (entity +:+ " not found") NOT_FOUND.

(** [findOneOrFail({ id, ... })]: the record with that primary key, provided
    it meets the remaining conditions of the query and the active filters. *)
Definition findOneOrFail {E} (entity : string) (repo : World -> gmap string E)
    (id : string) (cond : World -> E -> bool) : Service E :=
  fun w =>
    match repo w !! id with
    | Some e => if cond w e then (Ok e, w) else (Throw (notFound entity), w)
    | None => (Throw (notFound entity), w)
    end.

(** The filters on artifacts, both on unless a query switches one off. *)
Record Filters : Type := mkFilters { deletedFilter : bool; principalAccessFilter : bool }.

Definition defaultFilters : Filters := mkFilters true true.

(** Modelled from the spec: the filter declarations of the entity are not
    part of the sources; the spec says that soft-deleted artifacts are
    excluded from reads while the record persists, and the source names the
    filter [principalAccess]. *)
Definition passes (f : Filters) (w : World) (a : Artifact.t) : bool :=
  (if deletedFilter f then negb (Artifact.is_deleted a) else true)
  && (if principalAccessFilter f then principalAccess w (Artifact.id a) else true).

(** [crypto.randomBytes(n)] *)
Definition randomBytes (n : nat) : Service (list byte) :=
  fun w => (Ok (map (entropy w) (seq (consumed w) n)), set_consumed (consumed w + n) w).

(** Modelled from the spec: the helper [getUpdatedValue] of [utils/update] is
    not part of the sources; the spec describes it as applying an optional
    field update that treats [undefined] as a no-op. *)
Definition getUpdatedValue {A} (newValue oldValue : js A) : js A :=
  match newValue with
  | undefined => oldValue
  | _ => newValue
  end.

(** Modelled from the spec: [createDeleteResponse] of [utils/delete] is not
    part of the sources; the spec describes a deletion confirmation record
    referencing the id and the resource kind. *)
Record DeleteResponse : Type := mkDeleteResponse {
  deleted_id : string;
  deleted_kind : string
}.

Definition createDeleteResponse (id kind : string) : DeleteResponse :=
  mkDeleteResponse id kind.

(** Modelled from the spec: the constructor of [AppArtifact] is not part of
    the sources; the spec says that the id is unique and assigned at
    creation, as is the creation timestamp.  The id is taken fresh for the
    stored artifacts. *)
Record AppArtifactInput : Type := mkAppArtifactInput {
  in_thread : Thread.t;
  in_message : Message.t;
  in_sourceCode : js string;
  in_metadata : js (gmap string string);
  in_accessSecret : js string;
  in_name : js string;
  in_description : js string
}.

Definition new_AppArtifact (i : AppArtifactInput) : Service Artifact.t :=
  fun w =>
    (Ok (Artifact.mk (fresh_string "art_" (artifacts w)) APP
           (Thread.id (in_thread i)) (Message.id (in_message i))
           (in_metadata i) (in_name i) (in_description i) (in_accessSecret i)
           (now w) undefined (in_sourceCode i)),
     w).

(** Modelled from the spec: [delete()] of the entity is not part of the
    sources; the spec says it marks the record deleted without erasing it. *)
Definition Artifact_delete (a : Artifact.t) : Service Artifact.t :=
  fun w => (Ok (Artifact.set_deletedAt (val (now w)) a), w).

(** [persistAndFlush] of a new entity and [flush] of a loaded one both write
    the entity under its primary key. *)
Definition persistAndFlush (a : Artifact.t) : Service unit :=
  fun w => (Ok tt, set_artifacts (<[Artifact.id a := a]> (artifacts w)) w).

Definition flush (a : Artifact.t) : Service unit := persistAndFlush a.

(** ** The artifact service *)

(** [listArtifacts] only hands the repository to the pagination helpers,
    which are declared outside the sources; it is not embedded. *)

Definition getSecret : Service string :=
  bytes <- randomBytes 24 ;;
  ret (Base64Url.encode bytes).

Record ArtifactCreateBody : Type := mkArtifactCreateBody {
  create_thread_id : string;
  create_message_id : string;
  create_type : ArtifactType;
  create_source_code : js string;
  create_metadata : js (gmap string string);
  create_shared : js bool;
  create_name : js string;
  create_description : js string
}.

Definition createArtifact (body : ArtifactCreateBody) : Service (gmap string Value) :=
  thread <- findOneOrFail "Thread" threads (create_thread_id body) (fun _ _ => true) ;;
  message <- findOneOrFail "Message" messages (create_message_id body) (fun _ _ => true) ;;
  if negb (bool_decide (Message.thread message = Thread.id thread))
  then throw (mkAPIError "Thread message mismatch" INVALID_INPUT)
  else
    if bool_decide (create_type body = APP)
    then
      accessSecret <-
        (if strict_true (create_shared body)
         then secret <- getSecret ;; ret (val secret)
         else ret undefined) ;;
      artifact <-
        new_AppArtifact
          (mkAppArtifactInput thread message (create_source_code body)
             (create_metadata body) accessSecret (create_name body)
             (create_description body)) ;;
      persistAndFlush artifact ;;;
      ret (toDto artifact)
    else throw (mkAPIError "Artifact type not supported" INVALID_INPUT).

Definition readArtifact (artifact_id : string) : Service (gmap string Value) :=
  artifact <- findOneOrFail "Artifact" artifacts artifact_id (passes defaultFilters) ;;
  ret (toDto artifact).

Definition readSharedArtifact (secret artifact_id : string)
  : Service (js (gmap string Value)) :=
  artifact <-
    findOneOrFail "Artifact" artifacts artifact_id
      (fun w a =>
         bool_decide (Artifact.accessSecret a = val secret)
         && passes (mkFilters (deletedFilter defaultFilters) false) w a) ;;
  ret (toSharedDto artifact).

Record ArtifactUpdate : Type := mkArtifactUpdate {
  update_artifact_id : string;
  update_metadata : js (gmap string string);
  update_name : js string;
  update_description : js string;
  update_shared : js bool
}.

Definition updateArtifact (req : ArtifactUpdate) : Service (gmap string Value) :=
  artifact <-
    findOneOrFail "Artifact" artifacts (update_artifact_id req) (passes defaultFilters) ;;
  let artifact :=
    Artifact.set_metadata
      (getUpdatedValue (update_metadata req) (Artifact.metadata artifact)) artifact in
  let artifact :=
    Artifact.set_name (getUpdatedValue (update_name req) (Artifact.name artifact)) artifact in
  let artifact :=
    Artifact.set_description
      (getUpdatedValue (update_description req) (Artifact.description artifact))
      artifact in
  artifact <-
    (if strict_true (update_shared req)
     then secret <- getSecret ;; ret (Artifact.set_accessSecret (val secret) artifact)
     else
       if strict_false (update_shared req)
       then ret (Artifact.set_accessSecret undefined artifact)
       else ret artifact) ;;
  flush artifact ;;;
  ret (toDto artifact).

Definition deleteArtifact (artifact_id : string) : Service DeleteResponse :=
  artifact <- findOneOrFail "Artifact" artifacts artifact_id (passes defaultFilters) ;;
  artifact <- Artifact_delete artifact ;;
  flush artifact ;;;
  ret (createDeleteResponse artifact_id "artifact").

(** ** Vocabulary of the statements *)

(** The artifact with the three value fields of an update request applied. *)
Definition updatedFields (req : ArtifactUpdate) (a : Artifact.t) : Artifact.t :=
  Artifact.set_description
    (getUpdatedValue (update_description req) (Artifact.description a))
    (Artifact.set_name (getUpdatedValue (update_name req) (Artifact.name a))
       (Artifact.set_metadata
          (getUpdatedValue (update_metadata req) (Artifact.metadata a)) a)).

(** The record an update request leaves behind, given the record it found. *)
Definition updatedArtifact (req : ArtifactUpdate) (w : World) (a : Artifact.t)
  : Artifact.t :=
  match update_shared req with
  | val true =>
      Artifact.set_accessSecret
        (val (Base64Url.encode (map (entropy w) (seq (consumed w) 24))))
        (updatedFields req a)
  | val false => Artifact.set_accessSecret undefined (updatedFields req a)
  | undefined | null => updatedFields req a
  end.

(** The shared DTO of an artifact, empty when there is none. *)
Definition sharedOf (a : Artifact.t) : gmap string Value :=
  nullish (toSharedDto a) ∅.

(** A property of the object a call returned, if it returned one. *)
Definition returned (k : string) (o : Outcome (gmap string Value)) : option Value :=
  match o with
  | Ok dto => dto !! k
  | Throw _ => None
  end.

Definition returnedShared (k : string) (o : Outcome (js (gmap string Value)))
  : option Value :=
  match o with
  | Ok (val dto) => dto !! k
  | Ok undefined | Ok null | Throw _ => None
  end.

(** Every stored record sits under its own id. *)
Definition keyed (w : World) : Prop :=
  map_Forall (fun k t => Thread.id t = k) (threads w)
  /\ map_Forall (fun k m => Message.id m = k) (messages w)
  /\ map_Forall (fun k a => Artifact.id a = k) (artifacts w).

(** The bytes the next call of [getSecret] draws. *)
Definition nextDraw (w : World) : list byte :=
  map (entropy w) (seq (consumed w) 24).

Definition absent {A} (x : js A) : Prop := x = undefined \/ x = null.

(** Every stored artifact is of type APP, and a stored secret is never the
    empty string. *)
Definition wellformed (w : World) : Prop :=
  map_Forall
    (fun _ a => Artifact.type a = APP /\ Artifact.accessSecret a <> val "")
    (artifacts w).

(** ** Sample data *)

Definition sampleArtifact : Artifact.t :=
  Artifact.mk "art_1" APP "t1" "m1" undefined (val "demo") null
    (val "s3cr3t") 1700000000123 undefined (val "print(1)").

(** A record with the empty string for a secret. *)
Definition blankSecretArtifact : Artifact.t :=
  Artifact.set_accessSecret (val "") sampleArtifact.

(** A record whose discriminator is not APP. *)
Definition chartArtifact : Artifact.t :=
  Artifact.mk "art_2" "chart" "t1" "m1" undefined undefined undefined
    undefined 1700000000456 undefined undefined.

(** A world whose random source delivers the byte 0 over and over. *)
Definition sampleWorld : World :=
  mkWorld {[ "t1" := Thread.mk "t1"; "t2" := Thread.mk "t2" ]}
    {[ "m1" := Message.mk "m1" "t1" ]}
    {[ "art_1" := sampleArtifact ]}
    (fun _ => true) (fun _ => x00%byte) 0 1700000000999.

Definition sampleCreate (thread_id : string) (shared : js bool) : ArtifactCreateBody :=
  mkArtifactCreateBody thread_id "m1" APP (val "print(1)") undefined shared
    undefined undefined.

Definition sampleUpdate (shared : js bool) : ArtifactUpdate :=
  mkArtifactUpdate "art_1" undefined undefined undefined shared.

(** The sample world seen by a principal that owns nothing. *)
Definition guestWorld : World :=
  mkWorld (threads sampleWorld) (messages sampleWorld) (artifacts sampleWorld)
    (fun _ => false) (entropy sampleWorld) (consumed sampleWorld) (now sampleWorld).

(** The sample world after its artifact was soft-deleted. *)
Definition deletedWorld : World :=
  set_artifacts
    {[ "art_1" := Artifact.set_deletedAt (val 1700000000500%Z) sampleArtifact ]}
    sampleWorld.

(** ** [SystemUsage] *)

Section SystemUsageEntity.
(** The enums [ToolType] and [SystemTools] and the type of the
    configuration blob are declared outside the sources. *)
Context {ToolType SystemTools Json : Type}.
Variable SYSTEM : ToolType.

Record SystemUsage : Type := mkSystemUsage {
  type : js ToolType;
  toolId : js SystemTools;
  config : js Json
}.

Record SystemUsageInput : Type := mkSystemUsageInput {
  input_toolId : SystemTools;
  input_config : js Json
}.

(** [super()]: the base class declares [type] and assigns nothing. *)
Definition ToolUsage_new : SystemUsage := mkSystemUsage undefined undefined undefined.

Definition set_type (v : js ToolType) (u : SystemUsage) : SystemUsage :=
  mkSystemUsage v (toolId u) (config u).

Definition set_toolId (v : js SystemTools) (u : SystemUsage) : SystemUsage :=
  mkSystemUsage (type u) v (config u).

Definition set_config (v : js Json) (u : SystemUsage) : SystemUsage :=
  mkSystemUsage (type u) (toolId u) v.

(** The constructor: [super()], then the field initializer
    [type = ToolType.SYSTEM], then the two assignments of the body. *)
Definition SystemUsage_new (input : SystemUsageInput) : SystemUsage :=
  let this := ToolUsage_new in
  let this := set_type (val SYSTEM) this in
  let this := set_toolId (val (input_toolId input)) this in
  let this := set_config (input_config input) this in
  this.
End SystemUsageEntity.

(** * Facts about the encoding of secrets *)

Module Base64UrlFacts.
Import Base64Url.

Lemma byte_bound (b : byte) : (Byte.to_N b < 256)%N.
Proof. pose proof (Byte.to_N_bounded b); lia. Qed.

Ltac euclid := zify; Z.to_euclidean_division_equations; lia.

Lemma s0_bound (a : N) : (a < 256 -> s0 a < 64)%N.
Proof. unfold s0. intros. euclid. Qed.

Lemma s1_bound (a b : N) : (b < 256 -> s1 a b < 64)%N.
Proof. unfold s1. intros. euclid. Qed.

Lemma s2_bound (b c : N) : (c < 256 -> s2 b c < 64)%N.
Proof. unfold s2. intros. euclid. Qed.

Lemma s3_bound (c : N) : (s3 c < 64)%N.
Proof. unfold s3. euclid. Qed.

(** A number written as [x * k + y] with [y < k] has one such writing. *)
Lemma mix_inj (k x y x' y' : N) :
  (y < k -> y' < k -> x * k + y = x' * k + y' -> x = x' /\ y = y')%N.
Proof.
  intros Hy Hy' H.
  assert (x = x') as ->.
  { destruct (N.lt_trichotomy x x') as [L|[E|L]]; [exfalso|exact E|exfalso].
    - assert ((x + 1) * k <= x' * k)%N by (apply N.mul_le_mono_r; lia). lia.
    - assert ((x' + 1) * k <= x * k)%N by (apply N.mul_le_mono_r; lia). lia. }
  split; [reflexivity | lia].
Qed.

Lemma s1_inj (a b a' b' : N) :
  (b < 256 -> b' < 256 -> s1 a b = s1 a' b' ->
   a mod 4 = a' mod 4 /\ b / 16 = b' / 16)%N.
Proof.
  unfold s1. intros Hb Hb' H. apply (mix_inj 16); [euclid | euclid | exact H].
Qed.

Lemma s2_inj (b c b' c' : N) :
  (c < 256 -> c' < 256 -> s2 b c = s2 b' c' ->
   b mod 16 = b' mod 16 /\ c / 64 = c' / 64)%N.
Proof.
  unfold s2. intros Hc Hc' H. apply (mix_inj 4); [euclid | euclid | exact H].
Qed.

Lemma div_mod_inj (k x y : N) :
  (k <> 0 -> x / k = y / k -> x mod k = y mod k -> x = y)%N.
Proof.
  intros Hk Hd Hm.
  rewrite (N.div_mod x k Hk), (N.div_mod y k Hk). congruence.
Qed.

Lemma sextets_inj (a b c a' b' c' : N) :
  (b < 256 -> c < 256 -> b' < 256 -> c' < 256 ->
   s0 a = s0 a' -> s1 a b = s1 a' b' -> s2 b c = s2 b' c' -> s3 c = s3 c' ->
   a = a' /\ b = b' /\ c = c')%N.
Proof.
  intros Hb Hc Hb' Hc' E0 E1 E2 E3.
  apply s1_inj in E1 as [Ea Eb]; [|assumption..].
  apply s2_inj in E2 as [Eb' Ec]; [|assumption..].
  repeat split.
  - by apply (div_mod_inj 4).
  - by apply (div_mod_inj 16).
  - by apply (div_mod_inj 64).
Qed.

Lemma sextet_index_char_all :
  forallb (fun i => bool_decide (sextet_index (sextet_char (N.of_nat i)) = Some (N.of_nat i)))
          (seq 0 64) = true.
Proof. vm_compute. reflexivity. Qed.

Lemma sextet_index_char (i : N) :
  (i < 64)%N -> sextet_index (sextet_char i) = Some i.
Proof.
  intros Hi. pose proof sextet_index_char_all as H.
  rewrite forallb_forall in H.
  specialize (H (N.to_nat i)). rewrite N2Nat.id in H.
  assert (Hin : In (N.to_nat i) (seq 0 64)) by (apply in_seq; lia).
  apply H in Hin. by apply bool_decide_eq_true in Hin.
Qed.

Lemma sextet_char_inj (i j : N) :
  (i < 64)%N -> (j < 64)%N -> sextet_char i = sextet_char j -> i = j.
Proof.
  intros Hi Hj H. apply sextet_index_char in Hi, Hj. congruence.
Qed.

Lemma to_N_inj (a b : byte) : Byte.to_N a = Byte.to_N b -> a = b.
Proof.
  intros H. pose proof (Byte.of_to_N a) as Ha.
  rewrite H, Byte.of_to_N in Ha. congruence.
Qed.

Lemma list_ind3 {A} (P : list A -> Prop) :
  P [] -> (forall a, P [a]) -> (forall a b, P [a; b]) ->
  (forall a b c l, P l -> P (a :: b :: c :: l)) ->
  forall l, P l.
Proof.
  intros H0 H1 H2 H3. fix IH 1.
  intros [|a [|b [|c l]]];
    [apply H0 | apply H1 | apply H2 | apply H3, IH].
Qed.

(** Equal characters pin down the sextets they were written from. *)
Ltac sextet E :=
  apply sextet_char_inj in E;
  [ | first [apply s0_bound | apply s1_bound | apply s2_bound | apply s3_bound];
      first [assumption | reflexivity] .. ].

Lemma encode_inj (bs1 bs2 : list byte) :
  encode bs1 = encode bs2 -> bs1 = bs2.
Proof.
  revert bs2. induction bs1 as [|a|a b|a b c l IH] using list_ind3;
    intros [|a' [|b' [|c' l']]] H; cbn [encode] in H;
    try discriminate; try reflexivity.
  - pose proof (byte_bound a). pose proof (byte_bound a').
    injection H as E0 E1. sextet E0. sextet E1.
    destruct (sextets_inj (Byte.to_N a) 0 0 (Byte.to_N a') 0 0)
      as (Ea & _); try assumption; try reflexivity.
    apply to_N_inj in Ea. congruence.
  - pose proof (byte_bound a). pose proof (byte_bound a').
    pose proof (byte_bound b). pose proof (byte_bound b').
    injection H as E0 E1 E2. sextet E0. sextet E1. sextet E2.
    destruct (sextets_inj (Byte.to_N a) (Byte.to_N b) 0
                (Byte.to_N a') (Byte.to_N b') 0)
      as (Ea & Eb & _); try assumption; try reflexivity.
    apply to_N_inj in Ea, Eb. congruence.
  - pose proof (byte_bound a). pose proof (byte_bound a').
    pose proof (byte_bound b). pose proof (byte_bound b').
    pose proof (byte_bound c). pose proof (byte_bound c').
    injection H as E0 E1 E2 E3 H. sextet E0. sextet E1. sextet E2. sextet E3.
    destruct (sextets_inj (Byte.to_N a) (Byte.to_N b) (Byte.to_N c)
                (Byte.to_N a') (Byte.to_N b') (Byte.to_N c'))
      as (Ea & Eb & Ec); try assumption.
    apply to_N_inj in Ea, Eb, Ec. apply IH in H. congruence.
Qed.

Lemma encode_length24 (bs : list byte) :
  length bs = 24%nat -> String.length (encode bs) = 32%nat.
Proof.
  intros H.
  do 24 (destruct bs as [|? bs]; [discriminate H|]).
  destruct bs; [reflexivity | discriminate H].
Qed.

Lemma url_safe_sextet (i : N) : (i < 64)%N -> url_safe (sextet_char i) = true.
Proof. intros Hi. unfold url_safe. by rewrite sextet_index_char. Qed.

Lemma encode_url_safe (bs : list byte) : all_url_safe (encode bs) = true.
Proof.
  induction bs as [|a|a b|a b c l IH] using list_ind3; cbn [encode all_url_safe].
  - reflexivity.
  - pose proof (byte_bound a).
    by rewrite !url_safe_sextet by (first [apply s0_bound | apply s1_bound]; done).
  - pose proof (byte_bound a). pose proof (byte_bound b).
    by rewrite !url_safe_sextet
      by (first [apply s0_bound | apply s1_bound | apply s2_bound]; done).
  - pose proof (byte_bound a). pose proof (byte_bound b). pose proof (byte_bound c).
    by rewrite IH, !url_safe_sextet
      by (first [apply s0_bound | apply s1_bound | apply s2_bound | apply s3_bound]; done).
Qed.
End Base64UrlFacts.

(** * The artifact service *)

Lemma val_inj {A} (x y : A) : val x = val y -> x = y.
Proof. intros E. injection E as E. exact E. Qed.

Lemma findOneOrFail_found {E} entity (repo : World -> gmap string E) id cond w e :
  repo w !! id = Some e -> cond w e = true ->
  findOneOrFail entity repo id cond w = (Ok e, w).
Proof. intros Hl Hc. unfold findOneOrFail. by rewrite Hl, Hc. Qed.

Lemma findOneOrFail_rejected {E} entity (repo : World -> gmap string E) id cond w e :
  repo w !! id = Some e -> cond w e = false ->
  findOneOrFail entity repo id cond w = (Throw (notFound entity), w).
Proof. intros Hl Hc. unfold findOneOrFail. by rewrite Hl, Hc. Qed.

Lemma findOneOrFail_missing {E} entity (repo : World -> gmap string E) id cond w :
  repo w !! id = None ->
  findOneOrFail entity repo id cond w = (Throw (notFound entity), w).
Proof. intros Hl. unfold findOneOrFail. by rewrite Hl. Qed.

Lemma passes_shared w a :
  passes (mkFilters (deletedFilter defaultFilters) false) w a
  = negb (Artifact.is_deleted a).
Proof. unfold passes. simpl. by rewrite andb_true_r. Qed.

(** A soft-deleted artifact is out of reach of the shared read, whatever the
    secret. *)
Lemma readSharedArtifact_deleted w artifact_id secret a :
  artifacts w !! artifact_id = Some a ->
  Artifact.is_deleted a = true ->
  readSharedArtifact secret artifact_id w = (Throw (notFound "Artifact"), w).
Proof.
  intros Hl Hd. unfold readSharedArtifact, bind.
  rewrite (findOneOrFail_rejected _ _ _ _ _ a); [done | done |].
  by rewrite passes_shared, Hd, andb_false_r.
Qed.

(** C1: for an artifact in the store (not soft-deleted), [readSharedArtifact]
    returns, and then returns [toSharedDto] of that artifact, if and only if
    the supplied secret equals the artifact's current [accessSecret]; on a
    mismatch it throws the NotFound error of a failed lookup, the very error
    it throws for an id under which nothing is stored.  The world is left as
    it was. *)
Theorem readSharedArtifact_secret_match (w : World) (artifact_id secret : string)
    (a : Artifact.t) :
  artifacts w !! artifact_id = Some a ->
  Artifact.is_deleted a = false ->
  ((exists dto, readSharedArtifact secret artifact_id w = (Ok dto, w))
     <-> Artifact.accessSecret a = val secret)
  /\ (Artifact.accessSecret a = val secret ->
      readSharedArtifact secret artifact_id w = (Ok (toSharedDto a), w))
  /\ (Artifact.accessSecret a <> val secret ->
      readSharedArtifact secret artifact_id w = (Throw (notFound "Artifact"), w))
  /\ (forall missing, artifacts w !! missing = None ->
      readSharedArtifact secret missing w = (Throw (notFound "Artifact"), w)).
Proof.
  intros Hl Hd.
  assert (Hyes : Artifact.accessSecret a = val secret ->
                 readSharedArtifact secret artifact_id w = (Ok (toSharedDto a), w)).
  { intros Hs. unfold readSharedArtifact, bind.
    rewrite (findOneOrFail_found _ _ _ _ _ a); [done | done |].
    rewrite passes_shared, Hd. by rewrite bool_decide_eq_true_2. }
  assert (Hno : Artifact.accessSecret a <> val secret ->
                readSharedArtifact secret artifact_id w
                = (Throw (notFound "Artifact"), w)).
  { intros Hs. unfold readSharedArtifact, bind.
    rewrite (findOneOrFail_rejected _ _ _ _ _ a); [done | done |].
    by rewrite bool_decide_eq_false_2. }
  repeat split; try assumption.
  - intros [dto Hdto].
    destruct (decide (Artifact.accessSecret a = val secret)) as [|Hne]; [done|].
    rewrite (Hno Hne) in Hdto. discriminate.
  - intros Hs. eexists. by apply Hyes.
  - intros missing Hm. unfold readSharedArtifact, bind.
    by rewrite findOneOrFail_missing.
Qed.

(** C2: an artifact whose type is not APP has no shared DTO: [toSharedDto]
    yields [undefined], never an object of the base shape. *)
Theorem toSharedDto_unhandled_type (a : Artifact.t) :
  Artifact.type a <> APP ->
  toSharedDto a = undefined /\ forall dto, toSharedDto a <> val dto.
Proof.
  intros Ht. unfold toSharedDto.
  destruct (decide (Artifact.type a = APP)); [done|]. by split.
Qed.

(** C4: when the thread and the message both exist and the message's thread
    id differs from the given thread id, [createArtifact] throws InvalidInput
    and leaves the world, hence everything persisted, as it was. *)
Theorem createArtifact_thread_mismatch (w : World) (body : ArtifactCreateBody)
    (thread : Thread.t) (message : Message.t) :
  keyed w ->
  threads w !! create_thread_id body = Some thread ->
  messages w !! create_message_id body = Some message ->
  Message.thread message <> create_thread_id body ->
  createArtifact body w
  = (Throw (mkAPIError "Thread message mismatch" INVALID_INPUT), w).
Proof.
  intros (Kt & _ & _) Ht Hm Hne. unfold createArtifact, bind.
  rewrite (findOneOrFail_found _ _ _ _ _ thread) by done.
  rewrite (findOneOrFail_found _ _ _ _ _ message) by done.
  rewrite (Kt _ _ Ht). by rewrite bool_decide_eq_false_2.
Qed.

(** * Serialization *)

(** Reading a property off an object literal: the last write wins. *)
Ltac property :=
  unfold literal, write; cbn [foldl fst snd nullish of_js];
  repeat first
    [ rewrite lookup_insert_eq
    | rewrite lookup_insert_ne by discriminate
    | rewrite lookup_empty ];
  try reflexivity.

Lemma toSharedDto_APP (a : Artifact.t) :
  Artifact.type a = APP -> toSharedDto a = val (sharedOf a).
Proof.
  intros Ht. unfold sharedOf, toSharedDto.
  destruct (decide (Artifact.type a = APP)); [reflexivity | done].
Qed.

Lemma toDto_APP (a : Artifact.t) :
  Artifact.type a = APP ->
  toDto a
  = <["message_id" := VString (Artifact.message a)]>
      (<["thread_id" := VString (Artifact.thread a)]>
         (<["object" := VString "artifact"]> (sharedOf a))).
Proof. intros Ht. unfold toDto. rewrite toSharedDto_APP by done. reflexivity. Qed.

Lemma sharedOf_share_url (a : Artifact.t) :
  Artifact.type a = APP ->
  sharedOf a !! "share_url"
  = Some (VString
            (if truthy (Artifact.accessSecret a)
             then "/v1/artifacts/" +:+ Artifact.id a +:+ "/shared?secret="
                    +:+ interpolate (Artifact.accessSecret a)
             else "")).
Proof.
  intros Ht. unfold sharedOf, toSharedDto.
  destruct (decide (Artifact.type a = APP)); [|done].
  cbn [nullish]. property.
Qed.

Lemma toDto_share_url (a : Artifact.t) :
  Artifact.type a = APP -> toDto a !! "share_url" = sharedOf a !! "share_url".
Proof. intros Ht. rewrite toDto_APP by done. property. Qed.

(** C7, as the code has it: for an artifact of type APP, the [share_url] of
    [toSharedDto], and with it that of [toDto], is the path
    [/v1/artifacts/{id}/shared?secret={secret}] when [accessSecret] is a
    non-empty string, and the empty string when [accessSecret] is absent or
    the empty string. *)
Theorem share_url_derivation (a : Artifact.t) :
  Artifact.type a = APP ->
  exists dto, toSharedDto a = val dto
  /\ toDto a !! "share_url" = dto !! "share_url"
  /\ (forall secret, Artifact.accessSecret a = val secret -> secret <> "" ->
      dto !! "share_url"
      = Some (VString ("/v1/artifacts/" +:+ Artifact.id a +:+ "/shared?secret="
                         +:+ secret)))
  /\ (absent (Artifact.accessSecret a) \/ Artifact.accessSecret a = val "" ->
      dto !! "share_url" = Some (VString "")).
Proof.
  intros Ht. exists (sharedOf a).
  split; [by apply toSharedDto_APP|].
  split; [by apply toDto_share_url|].
  rewrite sharedOf_share_url by done. split.
  - intros secret -> Hne. cbn [truthy interpolate].
    destruct (decide (secret = "")); [done | reflexivity].
  - intros [[-> | ->] | ->]; reflexivity.
Qed.

(** C10: for an artifact of type APP, the shared DTO has [metadata] equal to
    the empty map when the artifact has none and [description] equal to the
    empty string when the artifact has none; it has no [thread_id] and no
    [message_id]; [toDto] is that object with [object], [thread_id] and
    [message_id] written on top, and nothing else differs. *)
Theorem toSharedDto_normalizes (a : Artifact.t) :
  Artifact.type a = APP ->
  exists dto, toSharedDto a = val dto
  /\ (absent (Artifact.metadata a) -> dto !! "metadata" = Some (VObject ∅))
  /\ (absent (Artifact.description a) -> dto !! "description" = Some (VString ""))
  /\ dto !! "thread_id" = None
  /\ dto !! "message_id" = None
  /\ toDto a !! "object" = Some (VString "artifact")
  /\ toDto a !! "thread_id" = Some (VString (Artifact.thread a))
  /\ toDto a !! "message_id" = Some (VString (Artifact.message a))
  /\ dom (toDto a) = dom dto ∪ {[ "thread_id"; "message_id" ]}
  /\ (forall k, k <> "object" -> k <> "thread_id" -> k <> "message_id" ->
      toDto a !! k = dto !! k).
Proof.
  intros Ht. exists (sharedOf a).
  split; [by apply toSharedDto_APP|].
  rewrite toDto_APP by done.
  unfold sharedOf, toSharedDto.
  destruct (decide (Artifact.type a = APP)); [|done]. cbn [nullish].
  repeat apply conj.
  - intros [-> | ->]; property.
  - intros [-> | ->]; property.
  - property.
  - property.
  - property.
  - property.
  - property.
  - unfold literal, write; cbn [foldl fst snd].
    rewrite !dom_insert_L. set_solver.
  - intros k H1 H2 H3. by rewrite !lookup_insert_ne.
Qed.

(** * [SystemUsage] *)

(** C9: the constructed [SystemUsage] has [type] SYSTEM and carries the given
    [toolId] and [config] unchanged; the constructor is a function of its
    input alone. *)
Theorem SystemUsage_new_fields {ToolType SystemTools Json : Type}
    (SYSTEM : ToolType) (input : @SystemUsageInput SystemTools Json) :
  type (SystemUsage_new SYSTEM input) = val SYSTEM
  /\ toolId (SystemUsage_new SYSTEM input) = val (input_toolId input)
  /\ config (SystemUsage_new SYSTEM input) = input_config input.
Proof. repeat apply conj; reflexivity. Qed.

(** * Updating, creating and deleting *)

Lemma getSecret_run (w : World) :
  getSecret w = (Ok (Base64Url.encode (nextDraw w)), set_consumed (consumed w + 24) w).
Proof. reflexivity. Qed.

Lemma nextDraw_length (w : World) : length (nextDraw w) = 24.
Proof. unfold nextDraw. by rewrite length_map, length_seq. Qed.

(** A generated secret has 32 characters, all of the url-safe alphabet. *)
Lemma secret_shape (w : World) :
  String.length (Base64Url.encode (nextDraw w)) = 32
  /\ Base64Url.all_url_safe (Base64Url.encode (nextDraw w)) = true
  /\ Base64Url.encode (nextDraw w) <> "".
Proof.
  pose proof (Base64UrlFacts.encode_length24 _ (nextDraw_length w)) as Hlen.
  repeat apply conj.
  - exact Hlen.
  - apply Base64UrlFacts.encode_url_safe.
  - intros E. rewrite E in Hlen. discriminate.
Qed.

Lemma set_artifacts_id (w : World) : set_artifacts (artifacts w) w = w.
Proof. by destruct w. Qed.

Lemma set_consumed_id (w : World) : set_consumed (consumed w) w = w.
Proof. by destruct w. Qed.

(** What [updateArtifact] does to an artifact it has found. *)
Lemma updateArtifact_found (w : World) (req : ArtifactUpdate) (a : Artifact.t) :
  artifacts w !! update_artifact_id req = Some a ->
  passes defaultFilters w a = true ->
  updateArtifact req w
  = (Ok (toDto (updatedArtifact req w a)),
     set_artifacts (<[Artifact.id a := updatedArtifact req w a]> (artifacts w))
       (set_consumed (consumed w + if strict_true (update_shared req) then 24 else 0) w)).
Proof.
  intros Hl Hp. unfold updateArtifact, bind.
  rewrite (findOneOrFail_found _ _ _ _ _ a) by done.
  fold (updatedFields req a). unfold updatedArtifact.
  destruct (update_shared req) as [| |[|]]; cbn [strict_true strict_false];
    rewrite ?Nat.add_0_r, ?set_consumed_id; reflexivity.
Qed.

(** C3, as the code has it: on an artifact it finds, [updateArtifact] with
    [shared] true stores as [accessSecret] the base64url text of the 24 bytes
    it draws from the random source, and this equals the previous secret
    exactly when the bytes drawn are the bytes the previous secret encodes;
    with [shared] false it stores [undefined]; with [shared] omitted it keeps
    the [accessSecret] it found. *)
Theorem updateArtifact_accessSecret (w : World) (req : ArtifactUpdate)
    (a : Artifact.t) :
  keyed w ->
  artifacts w !! update_artifact_id req = Some a ->
  passes defaultFilters w a = true ->
  exists a',
    fst (updateArtifact req w) = Ok (toDto a')
    /\ artifacts (snd (updateArtifact req w)) !! update_artifact_id req = Some a'
    /\ (update_shared req = val true ->
        Artifact.accessSecret a' = val (Base64Url.encode (nextDraw w))
        /\ consumed (snd (updateArtifact req w)) = consumed w + 24
        /\ forall bs, Artifact.accessSecret a = val (Base64Url.encode bs) ->
             (Artifact.accessSecret a' = Artifact.accessSecret a <-> nextDraw w = bs))
    /\ (update_shared req = val false -> Artifact.accessSecret a' = undefined)
    /\ (update_shared req = undefined ->
        Artifact.accessSecret a' = Artifact.accessSecret a).
Proof.
  intros (_ & _ & Ka) Hl Hp.
  rewrite (updateArtifact_found w req a Hl Hp), (Ka _ _ Hl).
  exists (updatedArtifact req w a). cbn [fst snd set_artifacts artifacts].
  split; [reflexivity|]. split; [apply lookup_insert_eq|].
  unfold updatedArtifact. repeat apply conj.
  - intros ->. cbn [strict_true]. repeat apply conj; try reflexivity.
    intros bs Hbs. cbn [Artifact.accessSecret Artifact.set_accessSecret].
    rewrite Hbs. fold (nextDraw w). split.
    + intros E. by apply Base64UrlFacts.encode_inj, val_inj.
    + by intros ->.
  - by intros ->.
  - by intros ->.
Qed.

Lemma readArtifact_found (w : World) (artifact_id : string) (a : Artifact.t) :
  artifacts w !! artifact_id = Some a ->
  passes defaultFilters w a = true ->
  readArtifact artifact_id w = (Ok (toDto a), w).
Proof.
  intros Hl Hp. unfold readArtifact, bind.
  by rewrite (findOneOrFail_found _ _ _ _ _ a).
Qed.

Lemma updatedFields_omitted (req : ArtifactUpdate) (a : Artifact.t) :
  update_metadata req = undefined ->
  update_name req = undefined ->
  update_description req = undefined ->
  updatedFields req a = a.
Proof. intros Hm Hn Hd. unfold updatedFields. rewrite Hm, Hn, Hd. by destruct a. Qed.

(** C5: on an artifact it finds, [updateArtifact] keeps each of [metadata],
    [name], [description] and [accessSecret] whose request field is omitted,
    never touches the other fields nor any other record, and with all four
    omitted it leaves the world as it was and returns what [readArtifact]
    returns. *)
Theorem updateArtifact_omitted_fields (w : World) (req : ArtifactUpdate)
    (a : Artifact.t) :
  keyed w ->
  artifacts w !! update_artifact_id req = Some a ->
  passes defaultFilters w a = true ->
  exists a',
    fst (updateArtifact req w) = Ok (toDto a')
    /\ artifacts (snd (updateArtifact req w)) !! update_artifact_id req = Some a'
    /\ (update_metadata req = undefined -> Artifact.metadata a' = Artifact.metadata a)
    /\ (update_name req = undefined -> Artifact.name a' = Artifact.name a)
    /\ (update_description req = undefined ->
        Artifact.description a' = Artifact.description a)
    /\ (update_shared req = undefined ->
        Artifact.accessSecret a' = Artifact.accessSecret a)
    /\ (Artifact.id a' = Artifact.id a /\ Artifact.type a' = Artifact.type a
        /\ Artifact.thread a' = Artifact.thread a
        /\ Artifact.message a' = Artifact.message a
        /\ Artifact.createdAt a' = Artifact.createdAt a
        /\ Artifact.deletedAt a' = Artifact.deletedAt a
        /\ Artifact.sourceCode a' = Artifact.sourceCode a)
    /\ (forall k, k <> update_artifact_id req ->
        artifacts (snd (updateArtifact req w)) !! k = artifacts w !! k)
    /\ threads (snd (updateArtifact req w)) = threads w
    /\ messages (snd (updateArtifact req w)) = messages w
    /\ (update_metadata req = undefined -> update_name req = undefined ->
        update_description req = undefined -> update_shared req = undefined ->
        updateArtifact req w = (Ok (toDto a), w)
        /\ updateArtifact req w = readArtifact (update_artifact_id req) w).
Proof.
  intros (_ & _ & Ka) Hl Hp.
  rewrite (updateArtifact_found w req a Hl Hp), (Ka _ _ Hl).
  exists (updatedArtifact req w a). cbn [fst snd set_artifacts artifacts threads messages].
  split; [reflexivity|]. split; [apply lookup_insert_eq|].
  repeat apply conj.
  - intros E. unfold updatedArtifact, updatedFields. rewrite E.
    by destruct (update_shared req) as [| |[|]].
  - intros E. unfold updatedArtifact, updatedFields. rewrite E.
    by destruct (update_shared req) as [| |[|]].
  - intros E. unfold updatedArtifact, updatedFields. rewrite E.
    by destruct (update_shared req) as [| |[|]].
  - intros E. unfold updatedArtifact. by rewrite E.
  - rewrite <- (Ka _ _ Hl). unfold updatedArtifact.
    destruct (update_shared req) as [| |[|]]; reflexivity.
  - unfold updatedArtifact. destruct (update_shared req) as [| |[|]]; reflexivity.
  - unfold updatedArtifact. destruct (update_shared req) as [| |[|]]; reflexivity.
  - unfold updatedArtifact. destruct (update_shared req) as [| |[|]]; reflexivity.
  - unfold updatedArtifact. destruct (update_shared req) as [| |[|]]; reflexivity.
  - unfold updatedArtifact. destruct (update_shared req) as [| |[|]]; reflexivity.
  - unfold updatedArtifact. destruct (update_shared req) as [| |[|]]; reflexivity.
  - intros k Hk. by rewrite lookup_insert_ne.
  - reflexivity.
  - reflexivity.
  - intros Hm Hn Hd Hs.
    assert (Ea : updatedArtifact req w a = a).
    { unfold updatedArtifact. rewrite Hs. by apply updatedFields_omitted. }
    rewrite Ea, Hs. cbn [strict_true].
    rewrite Nat.add_0_r, set_consumed_id, insert_id, set_artifacts_id by done.
    split; [reflexivity|]. by rewrite (readArtifact_found _ _ a).
Qed.

Lemma createArtifact_valid (w : World) (body : ArtifactCreateBody)
    (thread : Thread.t) (message : Message.t) :
  threads w !! create_thread_id body = Some thread ->
  messages w !! create_message_id body = Some message ->
  Message.thread message = Thread.id thread ->
  create_type body = APP ->
  let artifact (secret : js string) (w : World) :=
    Artifact.mk (fresh_string "art_" (artifacts w)) APP (Thread.id thread)
      (Message.id message) (create_metadata body) (create_name body)
      (create_description body) secret (now w) undefined
      (create_source_code body) in
  createArtifact body w
  = if strict_true (create_shared body)
    then
      let a := artifact (val (Base64Url.encode (nextDraw w))) w in
      (Ok (toDto a),
       set_artifacts (<[Artifact.id a := a]> (artifacts w))
         (set_consumed (consumed w + 24) w))
    else
      let a := artifact undefined w in
      (Ok (toDto a), set_artifacts (<[Artifact.id a := a]> (artifacts w)) w).
Proof.
  intros Ht Hm Hmt Hty. unfold createArtifact, bind.
  rewrite (findOneOrFail_found _ _ _ _ _ thread) by done.
  rewrite (findOneOrFail_found _ _ _ _ _ message) by done.
  rewrite bool_decide_eq_true_2 by done. cbn [negb].
  rewrite bool_decide_eq_true_2 by done.
  by destruct (strict_true (create_shared body)).
Qed.

(** C6: for a request whose thread and message exist and match and whose
    type is APP, [createArtifact] with [shared] true draws 24 bytes from the
    random source, stores their base64url text (32 url-safe characters) as
    the [accessSecret] of the new record, and returns a DTO whose [share_url]
    is non-empty and ends with that secret; with [shared] anything else the
    DTO's [share_url] is the empty string and no byte is drawn. *)
Theorem createArtifact_share_url (w : World) (body : ArtifactCreateBody)
    (thread : Thread.t) (message : Message.t) :
  threads w !! create_thread_id body = Some thread ->
  messages w !! create_message_id body = Some message ->
  Message.thread message = Thread.id thread ->
  create_type body = APP ->
  let id := fresh_string "art_" (artifacts w) in
  exists dto a,
    fst (createArtifact body w) = Ok dto
    /\ artifacts w !! id = None
    /\ artifacts (snd (createArtifact body w)) !! id = Some a
    /\ (create_shared body = val true ->
        let secret := Base64Url.encode (nextDraw w) in
        String.length secret = 32
        /\ Base64Url.all_url_safe secret = true
        /\ consumed (snd (createArtifact body w)) = consumed w + 24
        /\ Artifact.accessSecret a = val secret
        /\ dto !! "share_url"
           = Some (VString ("/v1/artifacts/" +:+ id +:+ "/shared?secret=" +:+ secret))
        /\ "/v1/artifacts/" +:+ id +:+ "/shared?secret=" +:+ secret <> "")
    /\ (create_shared body <> val true ->
        Artifact.accessSecret a = undefined
        /\ consumed (snd (createArtifact body w)) = consumed w
        /\ dto !! "share_url" = Some (VString "")).
Proof.
  intros Ht Hm Hmt Hty id.
  rewrite (createArtifact_valid w body thread message Ht Hm Hmt Hty). cbn zeta.
  fold id.
  destruct (secret_shape w) as (Hlen & Hsafe & Hne).
  destruct (strict_true (create_shared body)) eqn:Hs.
  - eexists _, _. cbn [fst snd Artifact.id].
    split; [reflexivity|]. split; [apply fresh_string_fresh|].
    split; [apply lookup_insert_eq|]. split.
    + intros _. cbn zeta.
      repeat apply conj;
        [exact Hlen | exact Hsafe | reflexivity | reflexivity | | discriminate].
      rewrite toDto_share_url, sharedOf_share_url by done.
      cbn [Artifact.accessSecret Artifact.id truthy interpolate].
      by destruct (decide (Base64Url.encode (nextDraw w) = "")).
    + intros Hn. by destruct (create_shared body) as [| |[|]].
  - eexists _, _. cbn [fst snd Artifact.id].
    split; [reflexivity|]. split; [apply fresh_string_fresh|].
    split; [apply lookup_insert_eq|]. split.
    + intros E. by rewrite E in Hs.
    + intros _. repeat apply conj; [reflexivity | reflexivity |].
      by rewrite toDto_share_url, sharedOf_share_url.
Qed.

(** C8: on an artifact it finds, [deleteArtifact] returns the confirmation
    for that id and the kind 'artifact' and stamps the record's [deletedAt];
    the record stays stored under its id, no record is removed, and
    [readArtifact] on that id then throws NotFound. *)
Theorem deleteArtifact_soft (w : World) (artifact_id : string) (a : Artifact.t) :
  keyed w ->
  artifacts w !! artifact_id = Some a ->
  passes defaultFilters w a = true ->
  let w' := snd (deleteArtifact artifact_id w) in
  fst (deleteArtifact artifact_id w) = Ok (createDeleteResponse artifact_id "artifact")
  /\ deleted_id (createDeleteResponse artifact_id "artifact") = artifact_id
  /\ deleted_kind (createDeleteResponse artifact_id "artifact") = "artifact"
  /\ artifacts w' !! artifact_id = Some (Artifact.set_deletedAt (val (now w)) a)
  /\ dom (artifacts w') = dom (artifacts w)
  /\ (forall k, k <> artifact_id -> artifacts w' !! k = artifacts w !! k)
  /\ readArtifact artifact_id w' = (Throw (notFound "Artifact"), w').
Proof.
  intros (_ & _ & Ka) Hl Hp w'.
  assert (Hrun : deleteArtifact artifact_id w
                 = (Ok (createDeleteResponse artifact_id "artifact"),
                    set_artifacts
                      (<[artifact_id := Artifact.set_deletedAt (val (now w)) a]>
                         (artifacts w)) w)).
  { unfold deleteArtifact, bind.
    rewrite (findOneOrFail_found _ _ _ _ _ a) by done.
    cbn. by rewrite (Ka _ _ Hl). }
  subst w'. rewrite Hrun. cbn [fst snd set_artifacts artifacts].
  repeat apply conj; try reflexivity.
  - apply lookup_insert_eq.
  - by apply dom_insert_lookup_L.
  - intros k Hk. by rewrite lookup_insert_ne.
  - unfold readArtifact, bind.
    rewrite (findOneOrFail_rejected _ _ _ _ _ (Artifact.set_deletedAt (val (now w)) a));
      [reflexivity | apply lookup_insert_eq | reflexivity].
Qed.

(** * The stored records stay keyed by their ids *)


Lemma updateArtifact_keyed (w : World) (req : ArtifactUpdate) :
  keyed w -> keyed (snd (updateArtifact req w)).
Proof.
  intros K. pose proof K as (Kt & Km & Ka).
  destruct (artifacts w !! update_artifact_id req) as [a|] eqn:Hl.
  - destruct (passes defaultFilters w a) eqn:Hp.
    + rewrite (updateArtifact_found w req a Hl Hp).
      repeat apply conj; [exact Kt | exact Km |].
      apply map_Forall_insert_2; [|exact Ka].
      unfold updatedArtifact.
      destruct (update_shared req) as [| |[|]]; reflexivity.
    + unfold updateArtifact, bind.
      by rewrite (findOneOrFail_rejected _ _ _ _ _ a).
  - unfold updateArtifact, bind. by rewrite findOneOrFail_missing.
Qed.


(** An update never hides the artifact from the next lookup. *)
Lemma updateArtifact_still_passes (w : World) (req : ArtifactUpdate) (a : Artifact.t) :
  passes defaultFilters w a = true ->
  passes defaultFilters (snd (updateArtifact req w)) (updatedArtifact req w a) = true.
Proof.
  intros Hp.
  assert (E : principalAccess (snd (updateArtifact req w)) = principalAccess w).
  { unfold updateArtifact, bind, findOneOrFail.
    destruct (artifacts w !! update_artifact_id req) as [b|]; [|done].
    destruct (passes defaultFilters w b); [|done].
    destruct (update_shared req) as [| |[|]]; reflexivity. }
  unfold passes in *. rewrite E. unfold updatedArtifact.
  destruct (update_shared req) as [| |[|]]; exact Hp.
Qed.

(** Two successive updates with [shared] true store the texts of two
    successive draws, which differ exactly when the draws differ. *)
Lemma updateArtifact_twice (w : World) (req1 req2 : ArtifactUpdate) (a : Artifact.t) :
  keyed w ->
  artifacts w !! update_artifact_id req1 = Some a ->
  passes defaultFilters w a = true ->
  update_artifact_id req2 = update_artifact_id req1 ->
  update_shared req1 = val true ->
  update_shared req2 = val true ->
  let w1 := snd (updateArtifact req1 w) in
  let w2 := snd (updateArtifact req2 w1) in
  exists a1 a2,
    artifacts w1 !! update_artifact_id req1 = Some a1
    /\ artifacts w2 !! update_artifact_id req1 = Some a2
    /\ Artifact.accessSecret a1 = val (Base64Url.encode (nextDraw w))
    /\ Artifact.accessSecret a2 = val (Base64Url.encode (nextDraw w1))
    /\ (Artifact.accessSecret a1 = Artifact.accessSecret a2
        <-> nextDraw w = nextDraw w1).
Proof.
  intros K Hl Hp Hid Hs1 Hs2 w1 w2.
  pose proof K as (_ & _ & Ka).
  set (a1 := updatedArtifact req1 w a).
  assert (L1 : artifacts w1 !! update_artifact_id req1 = Some a1).
  { subst w1. rewrite (updateArtifact_found w req1 a Hl Hp), (Ka _ _ Hl).
    apply lookup_insert_eq. }
  assert (Hp1 : passes defaultFilters w1 a1 = true)
    by (by apply updateArtifact_still_passes).
  assert (K1 : keyed w1) by (by apply updateArtifact_keyed).
  pose proof K1 as (_ & _ & Ka1).
  set (a2 := updatedArtifact req2 w1 a1).
  assert (L2 : artifacts w2 !! update_artifact_id req1 = Some a2).
  { subst w2. rewrite <- Hid in L1 |- *.
    rewrite (updateArtifact_found w1 req2 a1 L1 Hp1), (Ka1 _ _ L1).
    apply lookup_insert_eq. }
  assert (E1 : Artifact.accessSecret a1 = val (Base64Url.encode (nextDraw w))).
  { subst a1. unfold updatedArtifact. by rewrite Hs1. }
  assert (E2 : Artifact.accessSecret a2 = val (Base64Url.encode (nextDraw w1))).
  { subst a2. unfold updatedArtifact. by rewrite Hs2. }
  exists a1, a2.
  split; [exact L1|]. split; [exact L2|]. split; [exact E1|]. split; [exact E2|].
  rewrite E1, E2. split.
  - intros E. by apply Base64UrlFacts.encode_inj, val_inj.
  - by intros ->.
Qed.

(** * The statements at the sample data *)

Example encode_Man : Base64Url.encode [x4d; x61; x6e]%byte = "TWFu".
Proof. reflexivity. Qed.

Example encode_unpadded : Base64Url.encode [xfb; xff]%byte = "-_8".
Proof. reflexivity. Qed.

Lemma sampleWorld_keyed : keyed sampleWorld.
Proof. repeat apply conj; refine (bool_decide_unpack _ _); vm_compute; exact I. Qed.

Lemma readSharedArtifact_secret_match_witness :
  artifacts sampleWorld !! "art_1" = Some sampleArtifact
  /\ Artifact.is_deleted sampleArtifact = false
  /\ readSharedArtifact "s3cr3t" "art_1" sampleWorld
     = (Ok (toSharedDto sampleArtifact), sampleWorld)
  /\ readSharedArtifact "guess" "art_1" sampleWorld
     = (Throw (notFound "Artifact"), sampleWorld)
  /\ readSharedArtifact "s3cr3t" "art_9" sampleWorld
     = (Throw (notFound "Artifact"), sampleWorld).
Proof.
  assert (Hl : artifacts sampleWorld !! "art_1" = Some sampleArtifact)
    by reflexivity.
  assert (Hd : Artifact.is_deleted sampleArtifact = false) by reflexivity.
  split; [exact Hl|]. split; [exact Hd|].
  destruct (readSharedArtifact_secret_match sampleWorld "art_1" "s3cr3t"
              sampleArtifact Hl Hd) as (_ & Hyes & _ & Hmissing).
  destruct (readSharedArtifact_secret_match sampleWorld "art_1" "guess"
              sampleArtifact Hl Hd) as (_ & _ & Hno & _).
  split; [apply Hyes; reflexivity|].
  split; [apply Hno; discriminate|].
  apply Hmissing. reflexivity.
Defined.

Lemma toSharedDto_unhandled_type_witness :
  Artifact.type chartArtifact <> APP /\ toSharedDto chartArtifact = undefined.
Proof.
  assert (Ht : Artifact.type chartArtifact <> APP) by discriminate.
  split; [exact Ht|].
  exact (proj1 (toSharedDto_unhandled_type chartArtifact Ht)).
Defined.

(** C3, as stated, fails: with a random source that delivers the same 24
    bytes twice, two successive updates with [shared] true store the same
    secret. *)
Lemma updateArtifact_secret_repeats :
  let w1 := snd (updateArtifact (sampleUpdate (val true)) sampleWorld) in
  let w2 := snd (updateArtifact (sampleUpdate (val true)) w1) in
  Artifact.accessSecret <$> artifacts w1 !! "art_1"
  = Some (val "AAAAAAAAAAAAAAAAAAAAAAAAAAAAAAAA")
  /\ Artifact.accessSecret <$> artifacts w2 !! "art_1"
     = Some (val "AAAAAAAAAAAAAAAAAAAAAAAAAAAAAAAA").
Proof. vm_compute. split; reflexivity. Qed.

Lemma updateArtifact_accessSecret_witness :
  keyed sampleWorld
  /\ artifacts sampleWorld !! "art_1" = Some sampleArtifact
  /\ passes defaultFilters sampleWorld sampleArtifact = true
  /\ exists a',
       artifacts (snd (updateArtifact (sampleUpdate (val true)) sampleWorld)) !! "art_1"
       = Some a'
       /\ Artifact.accessSecret a' = val (Base64Url.encode (nextDraw sampleWorld)).
Proof.
  assert (K : keyed sampleWorld)
    by (repeat apply conj; refine (bool_decide_unpack _ _); vm_compute; exact I).
  assert (Hl : artifacts sampleWorld !! "art_1" = Some sampleArtifact)
    by reflexivity.
  assert (Hp : passes defaultFilters sampleWorld sampleArtifact = true)
    by reflexivity.
  split; [exact K|]. split; [exact Hl|]. split; [exact Hp|].
  destruct (updateArtifact_accessSecret sampleWorld (sampleUpdate (val true))
              sampleArtifact K Hl Hp) as (a' & _ & L & S & _).
  exists a'. split; [exact L|]. exact (proj1 (S eq_refl)).
Defined.

Lemma createArtifact_thread_mismatch_witness :
  keyed sampleWorld
  /\ threads sampleWorld !! "t2" = Some (Thread.mk "t2")
  /\ messages sampleWorld !! "m1" = Some (Message.mk "m1" "t1")
  /\ "t1" <> "t2"
  /\ createArtifact (sampleCreate "t2" (val true)) sampleWorld
     = (Throw (mkAPIError "Thread message mismatch" INVALID_INPUT), sampleWorld).
Proof.
  assert (K : keyed sampleWorld)
    by (repeat apply conj; refine (bool_decide_unpack _ _); vm_compute; exact I).
  assert (Ht : threads sampleWorld !! "t2" = Some (Thread.mk "t2")) by reflexivity.
  assert (Hm : messages sampleWorld !! "m1" = Some (Message.mk "m1" "t1"))
    by reflexivity.
  assert (Hne : "t1" <> "t2") by discriminate.
  split; [exact K|]. split; [exact Ht|]. split; [exact Hm|]. split; [exact Hne|].
  exact (createArtifact_thread_mismatch sampleWorld (sampleCreate "t2" (val true))
           (Thread.mk "t2") (Message.mk "m1" "t1") K Ht Hm Hne).
Defined.

Lemma updateArtifact_omitted_fields_witness :
  keyed sampleWorld
  /\ artifacts sampleWorld !! "art_1" = Some sampleArtifact
  /\ passes defaultFilters sampleWorld sampleArtifact = true
  /\ updateArtifact (sampleUpdate undefined) sampleWorld
     = (Ok (toDto sampleArtifact), sampleWorld)
  /\ updateArtifact (sampleUpdate undefined) sampleWorld
     = readArtifact "art_1" sampleWorld.
Proof.
  assert (K : keyed sampleWorld)
    by (repeat apply conj; refine (bool_decide_unpack _ _); vm_compute; exact I).
  assert (Hl : artifacts sampleWorld !! "art_1" = Some sampleArtifact)
    by reflexivity.
  assert (Hp : passes defaultFilters sampleWorld sampleArtifact = true)
    by reflexivity.
  split; [exact K|]. split; [exact Hl|]. split; [exact Hp|].
  destruct (updateArtifact_omitted_fields sampleWorld (sampleUpdate undefined)
              sampleArtifact K Hl Hp)
    as (a' & _ & _ & _ & _ & _ & _ & _ & _ & _ & _ & Hnoop).
  exact (Hnoop eq_refl eq_refl eq_refl eq_refl).
Defined.

Lemma createArtifact_share_url_witness :
  threads sampleWorld !! "t1" = Some (Thread.mk "t1")
  /\ messages sampleWorld !! "m1" = Some (Message.mk "m1" "t1")
  /\ exists dto,
       fst (createArtifact (sampleCreate "t1" (val true)) sampleWorld) = Ok dto
       /\ dto !! "share_url"
          = Some (VString ("/v1/artifacts/art_/shared?secret="
                             +:+ Base64Url.encode (nextDraw sampleWorld))).
Proof.
  assert (Ht : threads sampleWorld !! "t1" = Some (Thread.mk "t1")) by reflexivity.
  assert (Hm : messages sampleWorld !! "m1" = Some (Message.mk "m1" "t1"))
    by reflexivity.
  split; [exact Ht|]. split; [exact Hm|].
  destruct (createArtifact_share_url sampleWorld (sampleCreate "t1" (val true))
              (Thread.mk "t1") (Message.mk "m1" "t1") Ht Hm eq_refl eq_refl)
    as (dto & a & R & _ & _ & S & _).
  exists dto. split; [exact R|].
  destruct (S eq_refl) as (_ & _ & _ & _ & U & _). exact U.
Defined.

(** C7, as stated, fails: an artifact whose [accessSecret] is the empty
    string has a secret, yet its [share_url] is the empty string and not the
    path that ends in [?secret=]. *)
Lemma share_url_blank_secret :
  Artifact.accessSecret blankSecretArtifact = val ""
  /\ exists dto,
       toSharedDto blankSecretArtifact = val dto
       /\ dto !! "share_url" = Some (VString "")
       /\ dto !! "share_url"
          <> Some (VString ("/v1/artifacts/" +:+ Artifact.id blankSecretArtifact
                              +:+ "/shared?secret=" +:+ "")).
Proof.
  split; [reflexivity|]. eexists. split; [reflexivity|].
  split; [reflexivity | discriminate].
Qed.

Lemma share_url_derivation_witness :
  Artifact.type sampleArtifact = APP
  /\ exists dto,
       toSharedDto sampleArtifact = val dto
       /\ dto !! "share_url"
          = Some (VString "/v1/artifacts/art_1/shared?secret=s3cr3t").
Proof.
  split; [reflexivity|].
  destruct (share_url_derivation sampleArtifact eq_refl) as (dto & R & _ & U & _).
  exists dto. split; [exact R|].
  apply (U "s3cr3t"); [reflexivity | discriminate].
Defined.

Lemma deleteArtifact_soft_witness :
  keyed sampleWorld
  /\ artifacts sampleWorld !! "art_1" = Some sampleArtifact
  /\ passes defaultFilters sampleWorld sampleArtifact = true
  /\ fst (deleteArtifact "art_1" sampleWorld)
     = Ok (createDeleteResponse "art_1" "artifact")
  /\ readArtifact "art_1" (snd (deleteArtifact "art_1" sampleWorld))
     = (Throw (notFound "Artifact"), snd (deleteArtifact "art_1" sampleWorld)).
Proof.
  assert (K : keyed sampleWorld)
    by (repeat apply conj; refine (bool_decide_unpack _ _); vm_compute; exact I).
  assert (Hl : artifacts sampleWorld !! "art_1" = Some sampleArtifact)
    by reflexivity.
  assert (Hp : passes defaultFilters sampleWorld sampleArtifact = true)
    by reflexivity.
  split; [exact K|]. split; [exact Hl|]. split; [exact Hp|].
  destruct (deleteArtifact_soft sampleWorld "art_1" sampleArtifact K Hl Hp)
    as (R & _ & _ & _ & _ & _ & N).
  split; [exact R | exact N].
Defined.

Lemma toSharedDto_normalizes_witness :
  Artifact.type sampleArtifact = APP
  /\ exists dto,
       toSharedDto sampleArtifact = val dto
       /\ dto !! "metadata" = Some (VObject ∅)
       /\ dto !! "description" = Some (VString "")
       /\ dto !! "thread_id" = None.
Proof.
  split; [reflexivity|].
  destruct (toSharedDto_normalizes sampleArtifact eq_refl)
    as (dto & R & M & D & T & _).
  exists dto. split; [exact R|].
  split; [apply M; left; reflexivity|].
  split; [apply D; right; reflexivity | exact T].
Defined.

(** The example of the spec: create shared, then stop sharing. *)
Example create_then_unshare :
  let created := createArtifact (sampleCreate "t1" (val true)) sampleWorld in
  let w1 := snd created in
  let unshare := mkArtifactUpdate "art_" undefined undefined undefined (val false) in
  let secret := "AAAAAAAAAAAAAAAAAAAAAAAAAAAAAAAA" in
  returned "type" (fst created) = Some (VString "app")
  /\ returned "source_code" (fst created) = Some (VString "print(1)")
  /\ returned "share_url" (fst created)
     = Some (VString ("/v1/artifacts/art_/shared?secret=" +:+ secret))
  /\ returnedShared "object" (fst (readSharedArtifact secret "art_" w1))
     = Some (VString "artifact.shared")
  /\ returned "share_url" (fst (updateArtifact unshare w1)) = Some (VString "")
  /\ fst (readSharedArtifact secret "art_" (snd (updateArtifact unshare w1)))
     = Throw (notFound "Artifact").
Proof. cbn zeta. repeat apply conj; vm_compute; reflexivity. Qed.

(** * Further behaviour of the service *)

Lemma updateArtifact_rejected (w : World) (req : ArtifactUpdate) :
  (forall a, artifacts w !! update_artifact_id req = Some a ->
             passes defaultFilters w a = false) ->
  updateArtifact req w = (Throw (notFound "Artifact"), w).
Proof.
  intros H. unfold updateArtifact, bind, findOneOrFail.
  destruct (artifacts w !! update_artifact_id req) as [a|]; [|reflexivity].
  by rewrite (H a eq_refl).
Qed.

Lemma deleteArtifact_found (w : World) (artifact_id : string) (a : Artifact.t) :
  artifacts w !! artifact_id = Some a ->
  passes defaultFilters w a = true ->
  deleteArtifact artifact_id w
  = (Ok (createDeleteResponse artifact_id "artifact"),
     set_artifacts
       (<[Artifact.id a := Artifact.set_deletedAt (val (now w)) a]> (artifacts w)) w).
Proof.
  intros Hl Hp. unfold deleteArtifact, bind.
  by rewrite (findOneOrFail_found _ _ _ _ _ a).
Qed.

Lemma deleteArtifact_rejected (w : World) (artifact_id : string) :
  (forall a, artifacts w !! artifact_id = Some a ->
             passes defaultFilters w a = false) ->
  deleteArtifact artifact_id w = (Throw (notFound "Artifact"), w).
Proof.
  intros H. unfold deleteArtifact, bind, findOneOrFail.
  destruct (artifacts w !! artifact_id) as [a|]; [|reflexivity].
  by rewrite (H a eq_refl).
Qed.

Lemma readSharedArtifact_found (w : World) (artifact_id secret : string)
    (a : Artifact.t) :
  artifacts w !! artifact_id = Some a ->
  Artifact.is_deleted a = false ->
  Artifact.accessSecret a = val secret ->
  readSharedArtifact secret artifact_id w = (Ok (toSharedDto a), w).
Proof.
  intros Hl Hd Hs. unfold readSharedArtifact, bind.
  rewrite (findOneOrFail_found _ _ _ _ _ a); [done | done |].
  rewrite passes_shared, Hd. by rewrite bool_decide_eq_true_2.
Qed.

Lemma readSharedArtifact_mismatch (w : World) (artifact_id secret : string)
    (a : Artifact.t) :
  artifacts w !! artifact_id = Some a ->
  Artifact.accessSecret a <> val secret ->
  readSharedArtifact secret artifact_id w = (Throw (notFound "Artifact"), w).
Proof.
  intros Hl Hs. unfold readSharedArtifact, bind.
  rewrite (findOneOrFail_rejected _ _ _ _ _ a); [done | done |].
  by rewrite bool_decide_eq_false_2.
Qed.

Lemma readArtifact_rejected (w : World) (artifact_id : string) :
  (forall a, artifacts w !! artifact_id = Some a ->
             passes defaultFilters w a = false) ->
  readArtifact artifact_id w = (Throw (notFound "Artifact"), w).
Proof.
  intros H. unfold readArtifact, bind, findOneOrFail.
  destruct (artifacts w !! artifact_id) as [a|]; [|reflexivity].
  by rewrite (H a eq_refl).
Qed.

Lemma passes_default (w : World) (a : Artifact.t) :
  passes defaultFilters w a
  = negb (Artifact.is_deleted a) && principalAccess w (Artifact.id a).
Proof. reflexivity. Qed.

(** The properties of the shared DTO of an artifact of type APP, written
    out. *)
Lemma sharedOf_APP (a : Artifact.t) :
  Artifact.type a = APP ->
  sharedOf a
  = <["source_code" := of_js VString (Artifact.sourceCode a)]>
      (<["description" := VString (nullish (Artifact.description a) "")]>
         (<["name" := of_js VString (Artifact.name a)]>
            (<["share_url" :=
                 VString
                   (if truthy (Artifact.accessSecret a)
                    then "/v1/artifacts/" +:+ Artifact.id a +:+ "/shared?secret="
                           +:+ interpolate (Artifact.accessSecret a)
                    else "")]>
               (<["source_code" := of_js VString (Artifact.sourceCode a)]>
                  (<["created_at" := VNumber (unix (Artifact.createdAt a))]>
                     (<["metadata" := VObject (nullish (Artifact.metadata a) ∅)]>
                        (<["type" := VString (Artifact.type a)]>
                           (<["object" := VString "artifact.shared"]>
                              (<["id" := VString (Artifact.id a)]> ∅))))))))).
Proof.
  intros Ht. unfold sharedOf, toSharedDto.
  destruct (decide (Artifact.type a = APP)); [reflexivity | done].
Qed.

(** ** [createArtifact] *)

(** X1: when the thread or the message of the request is missing,
    [createArtifact] throws NotFound and leaves the world as it was; the
    thread is looked up first. *)
Theorem createArtifact_missing_parent (w : World) (body : ArtifactCreateBody) :
  threads w !! create_thread_id body = None
  \/ messages w !! create_message_id body = None ->
  exists e,
    createArtifact body w = (Throw e, w)
    /\ code e = NOT_FOUND
    /\ (threads w !! create_thread_id body = None -> e = notFound "Thread")
    /\ (threads w !! create_thread_id body <> None -> e = notFound "Message").
Proof.
  intros H. unfold createArtifact, bind, findOneOrFail.
  destruct (threads w !! create_thread_id body) as [thread|] eqn:Ht.
  - destruct H as [H|H]; [discriminate|]. rewrite H.
    exists (notFound "Message"). repeat apply conj; try reflexivity.
    intros E; discriminate.
  - exists (notFound "Thread"). repeat apply conj; try reflexivity.
    intros E; by destruct E.
Qed.

(** X2: with thread and message found and matching, a request whose type is
    not APP is refused with InvalidInput; nothing is stored and no byte is
    drawn, also when [shared] is true. *)
Theorem createArtifact_unsupported_type (w : World) (body : ArtifactCreateBody)
    (thread : Thread.t) (message : Message.t) :
  threads w !! create_thread_id body = Some thread ->
  messages w !! create_message_id body = Some message ->
  Message.thread message = Thread.id thread ->
  create_type body <> APP ->
  createArtifact body w
  = (Throw (mkAPIError "Artifact type not supported" INVALID_INPUT), w).
Proof.
  intros Ht Hm Hmt Hty. unfold createArtifact, bind.
  rewrite (findOneOrFail_found _ _ _ _ _ thread) by done.
  rewrite (findOneOrFail_found _ _ _ _ _ message) by done.
  rewrite bool_decide_eq_true_2 by done. cbn [negb].
  by rewrite bool_decide_eq_false_2.
Qed.

(** X3: the DTO of a created artifact echoes the request: the ids of the
    given thread and message, the type, the source code and the name as
    given, [metadata] and [description] with their defaults, the creation
    time in whole seconds, and the tag 'artifact'. *)
Theorem createArtifact_echo (w : World) (body : ArtifactCreateBody)
    (thread : Thread.t) (message : Message.t) :
  keyed w ->
  threads w !! create_thread_id body = Some thread ->
  messages w !! create_message_id body = Some message ->
  Message.thread message = create_thread_id body ->
  create_type body = APP ->
  exists dto,
    fst (createArtifact body w) = Ok dto
    /\ dto !! "object" = Some (VString "artifact")
    /\ dto !! "id" = Some (VString (fresh_string "art_" (artifacts w)))
    /\ dto !! "type" = Some (VString "app")
    /\ dto !! "thread_id" = Some (VString (create_thread_id body))
    /\ dto !! "message_id" = Some (VString (create_message_id body))
    /\ dto !! "source_code" = Some (of_js VString (create_source_code body))
    /\ dto !! "name" = Some (of_js VString (create_name body))
    /\ dto !! "metadata" = Some (VObject (nullish (create_metadata body) ∅))
    /\ dto !! "description" = Some (VString (nullish (create_description body) ""))
    /\ dto !! "created_at" = Some (VNumber (now w / 1000)).
Proof.
  intros (Kt & Km & _) Ht Hm Hmt Hty.
  assert (Hmt' : Message.thread message = Thread.id thread)
    by (by rewrite (Kt _ _ Ht)).
  rewrite (createArtifact_valid w body thread message Ht Hm Hmt' Hty). cbn zeta.
  rewrite (Kt _ _ Ht), (Km _ _ Hm).
  destruct (strict_true (create_shared body));
    eexists; (split; [reflexivity|]);
    rewrite toDto_APP, sharedOf_APP by reflexivity;
    cbn [Artifact.id Artifact.type Artifact.thread Artifact.message
         Artifact.metadata Artifact.name Artifact.description
         Artifact.createdAt Artifact.sourceCode];
    repeat apply conj; property.
Qed.

(** X4: a created artifact can be read back: [readArtifact] on the new id
    returns the DTO that [createArtifact] returned, as long as the principal
    filter lets the new id through. *)
Theorem create_then_read (w : World) (body : ArtifactCreateBody)
    (thread : Thread.t) (message : Message.t) :
  threads w !! create_thread_id body = Some thread ->
  messages w !! create_message_id body = Some message ->
  Message.thread message = Thread.id thread ->
  create_type body = APP ->
  principalAccess w (fresh_string "art_" (artifacts w)) = true ->
  let created := createArtifact body w in
  exists dto,
    fst created = Ok dto
    /\ readArtifact (fresh_string "art_" (artifacts w)) (snd created)
       = (Ok dto, snd created).
Proof.
  intros Ht Hm Hmt Hty Hp created. subst created.
  rewrite (createArtifact_valid w body thread message Ht Hm Hmt Hty). cbn zeta.
  destruct (strict_true (create_shared body));
    eexists; (split; [reflexivity|]); cbn [fst snd Artifact.id];
    (erewrite readArtifact_found; [reflexivity | apply lookup_insert_eq |]);
    rewrite passes_default; cbn; by rewrite Hp.
Qed.

(** X5: the link of a created artifact works: created with [shared] true,
    the artifact is returned by [readSharedArtifact] for the secret drawn;
    created otherwise, no secret opens it. *)
Theorem create_then_read_shared (w : World) (body : ArtifactCreateBody)
    (thread : Thread.t) (message : Message.t) :
  threads w !! create_thread_id body = Some thread ->
  messages w !! create_message_id body = Some message ->
  Message.thread message = Thread.id thread ->
  create_type body = APP ->
  let id := fresh_string "art_" (artifacts w) in
  let w' := snd (createArtifact body w) in
  (create_shared body = val true ->
   exists a shared,
     artifacts w' !! id = Some a
     /\ toSharedDto a = val shared
     /\ readSharedArtifact (Base64Url.encode (nextDraw w)) id w' = (Ok (val shared), w')
     /\ shared !! "share_url"
        = Some (VString ("/v1/artifacts/" +:+ id +:+ "/shared?secret="
                           +:+ Base64Url.encode (nextDraw w))))
  /\ (create_shared body <> val true ->
      forall secret,
        readSharedArtifact secret id w' = (Throw (notFound "Artifact"), w')).
Proof.
  intros Ht Hm Hmt Hty id w'. subst w'.
  rewrite (createArtifact_valid w body thread message Ht Hm Hmt Hty). cbn zeta.
  fold id. destruct (secret_shape w) as (_ & _ & Hne). split.
  - intros ->. cbn [strict_true snd Artifact.id].
    eexists _, _. split; [apply lookup_insert_eq|].
    split; [by apply toSharedDto_APP|].
    split.
    + erewrite readSharedArtifact_found;
        [ | apply lookup_insert_eq | reflexivity | reflexivity].
      by rewrite toSharedDto_APP.
    + rewrite sharedOf_share_url by reflexivity.
      cbn [Artifact.accessSecret Artifact.id truthy interpolate].
      by destruct (decide (Base64Url.encode (nextDraw w) = "")).
  - intros Hs secret.
    assert (E : strict_true (create_shared body) = false)
      by (by destruct (create_shared body) as [| |[|]]).
    rewrite E. cbn [snd Artifact.id].
    eapply readSharedArtifact_mismatch; [apply lookup_insert_eq | discriminate].
Qed.

(** X6: [createArtifact] never touches what is already stored: every
    artifact record, the threads and the messages are as before, whether the
    call returns or throws. *)
Theorem createArtifact_frame (w : World) (body : ArtifactCreateBody)
    (k : string) (a : Artifact.t) :
  artifacts w !! k = Some a ->
  artifacts (snd (createArtifact body w)) !! k = Some a
  /\ threads (snd (createArtifact body w)) = threads w
  /\ messages (snd (createArtifact body w)) = messages w.
Proof.
  intros Hl.
  assert (Hk : fresh_string "art_" (artifacts w) <> k).
  { intros <-. by rewrite fresh_string_fresh in Hl. }
  unfold createArtifact, bind, findOneOrFail.
  destruct (threads w !! create_thread_id body) as [thread|]; [|done].
  destruct (messages w !! create_message_id body) as [message|]; [|done].
  destruct (bool_decide (Message.thread message = Thread.id thread)); [|done].
  destruct (bool_decide (create_type body = APP)); [|done].
  destruct (strict_true (create_shared body));
    cbn; by rewrite lookup_insert_ne.
Qed.

(** ** [readArtifact] *)

(** X7: [readArtifact] returns exactly for an artifact that is stored under
    the id, not soft-deleted and let through by the principal filter; it then
    returns [toDto] of it, otherwise it throws NotFound; it never changes the
    world. *)
Theorem readArtifact_iff (w : World) (artifact_id : string) :
  ((exists dto, fst (readArtifact artifact_id w) = Ok dto)
   <-> exists a, artifacts w !! artifact_id = Some a
                 /\ Artifact.is_deleted a = false
                 /\ principalAccess w (Artifact.id a) = true)
  /\ (forall a, artifacts w !! artifact_id = Some a ->
                passes defaultFilters w a = true ->
                fst (readArtifact artifact_id w) = Ok (toDto a))
  /\ ((forall dto, fst (readArtifact artifact_id w) <> Ok dto) ->
      fst (readArtifact artifact_id w) = Throw (notFound "Artifact"))
  /\ snd (readArtifact artifact_id w) = w.
Proof.
  destruct (artifacts w !! artifact_id) as [a|] eqn:Hl.
  - destruct (passes defaultFilters w a) eqn:Hp.
    + rewrite (readArtifact_found w artifact_id a Hl Hp). cbn [fst snd].
      rewrite passes_default in Hp. apply andb_true_iff in Hp as [Hd Hq].
      apply negb_true_iff in Hd.
      split; [split|split; [|split]].
      * intros _. by exists a.
      * intros _. by eexists.
      * intros b E _. by injection E as <-.
      * intros H. exfalso. by apply (H (toDto a)).
      * reflexivity.
    + assert (R : readArtifact artifact_id w = (Throw (notFound "Artifact"), w)).
      { apply readArtifact_rejected. intros b E. rewrite Hl in E. by injection E as <-. }
      rewrite R. cbn [fst snd].
      split; [split|split; [|split]].
      * intros (dto & H). discriminate.
      * intros (b & E & Hd & Hq). injection E as <-.
        rewrite passes_default, Hd, Hq in Hp. discriminate.
      * intros b E Hb. injection E as <-. congruence.
      * reflexivity.
      * reflexivity.
  - assert (R : readArtifact artifact_id w = (Throw (notFound "Artifact"), w)).
    { apply readArtifact_rejected. intros b E. congruence. }
    rewrite R. cbn [fst snd].
    split; [split|split; [|split]].
    + intros (dto & H). discriminate.
    + intros (b & E & _). discriminate.
    + intros b E. discriminate.
    + reflexivity.
    + reflexivity.
Qed.

(** X8: the shared read is no subject to the principal filter: an artifact
    the principal may not access is refused by [readArtifact] and returned by
    [readSharedArtifact] for its secret. *)
Theorem shared_read_bypasses_principal (w : World) (artifact_id secret : string)
    (a : Artifact.t) :
  artifacts w !! artifact_id = Some a ->
  Artifact.is_deleted a = false ->
  Artifact.accessSecret a = val secret ->
  principalAccess w (Artifact.id a) = false ->
  readArtifact artifact_id w = (Throw (notFound "Artifact"), w)
  /\ readSharedArtifact secret artifact_id w = (Ok (toSharedDto a), w).
Proof.
  intros Hl Hd Hs Hp. split.
  - apply readArtifact_rejected. intros b E. rewrite Hl in E. injection E as <-.
    by rewrite passes_default, Hp, andb_false_r.
  - by apply readSharedArtifact_found.
Qed.

(** ** [updateArtifact] *)

(** X9: [updateArtifact] on an id that is not stored, or whose artifact is
    soft-deleted or withheld by the principal filter, throws NotFound and
    leaves the world as it was: nothing is written and no byte is drawn,
    also when [shared] is true. *)
Theorem updateArtifact_not_found (w : World) (req : ArtifactUpdate) :
  (forall a, artifacts w !! update_artifact_id req = Some a ->
             Artifact.is_deleted a = true
             \/ principalAccess w (Artifact.id a) = false) ->
  updateArtifact req w = (Throw (notFound "Artifact"), w).
Proof.
  intros H. apply updateArtifact_rejected. intros a Hl.
  rewrite passes_default. destruct (H a Hl) as [-> | ->]; [done|].
  by rewrite andb_false_r.
Qed.

(** X10: an update can be read back: [readArtifact] after [updateArtifact]
    returns the DTO the update returned. *)
Theorem update_then_read (w : World) (req : ArtifactUpdate) (a : Artifact.t) :
  keyed w ->
  artifacts w !! update_artifact_id req = Some a ->
  passes defaultFilters w a = true ->
  let updated := updateArtifact req w in
  readArtifact (update_artifact_id req) (snd updated) = (fst updated, snd updated).
Proof.
  intros K Hl Hp updated.
  pose proof (updateArtifact_still_passes w req a Hp) as Hp'.
  pose proof K as (_ & _ & Ka).
  subst updated. revert Hp'.
  rewrite (updateArtifact_found w req a Hl Hp), (Ka _ _ Hl). cbn [fst snd].
  intros Hp'. erewrite readArtifact_found; [reflexivity | apply lookup_insert_eq | exact Hp'].
Qed.

(** X11: an update with [shared] false withdraws the link: afterwards no
    secret opens the artifact, and for an artifact of type APP the DTO
    returned has the empty [share_url]. *)
Theorem update_unshare_revokes (w : World) (req : ArtifactUpdate) (a : Artifact.t) :
  keyed w ->
  artifacts w !! update_artifact_id req = Some a ->
  passes defaultFilters w a = true ->
  update_shared req = val false ->
  let w' := snd (updateArtifact req w) in
  (forall secret,
     readSharedArtifact secret (update_artifact_id req) w'
     = (Throw (notFound "Artifact"), w'))
  /\ (Artifact.type a = APP ->
      returned "share_url" (fst (updateArtifact req w)) = Some (VString "")).
Proof.
  intros (_ & _ & Ka) Hl Hp Hs w'. subst w'.
  rewrite (updateArtifact_found w req a Hl Hp), (Ka _ _ Hl).
  cbn [fst snd returned].
  assert (E : Artifact.accessSecret (updatedArtifact req w a) = undefined).
  { unfold updatedArtifact. by rewrite Hs. }
  split.
  - intros secret. eapply readSharedArtifact_mismatch; [apply lookup_insert_eq|].
    rewrite E. discriminate.
  - intros Ht.
    assert (Ht' : Artifact.type (updatedArtifact req w a) = APP).
    { unfold updatedArtifact. by rewrite Hs. }
    by rewrite toDto_share_url, sharedOf_share_url, E.
Qed.


(** ** [deleteArtifact] *)

(** X13: [deleteArtifact] on an id that is not stored, or whose artifact is
    already soft-deleted or withheld by the principal filter, throws NotFound
    and leaves the world as it was. *)
Theorem deleteArtifact_not_found (w : World) (artifact_id : string) :
  (forall a, artifacts w !! artifact_id = Some a ->
             Artifact.is_deleted a = true
             \/ principalAccess w (Artifact.id a) = false) ->
  deleteArtifact artifact_id w = (Throw (notFound "Artifact"), w).
Proof.
  intros H. apply deleteArtifact_rejected. intros a Hl.
  rewrite passes_default. destruct (H a Hl) as [-> | ->]; [done|].
  by rewrite andb_false_r.
Qed.

(** X14: after [deleteArtifact] the id is out of reach of every other call:
    a second delete, an update and a shared read with whatever secret all
    throw NotFound and change nothing, although the record keeps its
    secret. *)
Theorem delete_then_nothing (w : World) (artifact_id : string) (a : Artifact.t) :
  keyed w ->
  artifacts w !! artifact_id = Some a ->
  passes defaultFilters w a = true ->
  let w' := snd (deleteArtifact artifact_id w) in
  deleteArtifact artifact_id w' = (Throw (notFound "Artifact"), w')
  /\ (forall req, update_artifact_id req = artifact_id ->
      updateArtifact req w' = (Throw (notFound "Artifact"), w'))
  /\ (forall secret,
      readSharedArtifact secret artifact_id w' = (Throw (notFound "Artifact"), w'))
  /\ (exists a', artifacts w' !! artifact_id = Some a'
                 /\ Artifact.accessSecret a' = Artifact.accessSecret a).
Proof.
  intros (_ & _ & Ka) Hl Hp w'. subst w'.
  rewrite (deleteArtifact_found w artifact_id a Hl Hp), (Ka _ _ Hl). cbn [snd].
  set (d := Artifact.set_deletedAt (val (now w)) a).
  set (w' := set_artifacts (<[artifact_id := d]> (artifacts w)) w).
  assert (L : artifacts w' !! artifact_id = Some d) by apply lookup_insert_eq.
  assert (R : forall b, artifacts w' !! artifact_id = Some b ->
                        passes defaultFilters w' b = false).
  { intros b E. rewrite L in E. injection E as <-. reflexivity. }
  repeat apply conj.
  - by apply deleteArtifact_rejected.
  - intros req <-. by apply updateArtifact_rejected.
  - intros secret. by apply (readSharedArtifact_deleted w' artifact_id secret d).
  - exists d. split; [exact L | reflexivity].
Qed.

(** ** Serialization of an unhandled type *)

(** X15: for an artifact whose type is not APP, [toDto] spreads [undefined]
    and so returns an object with the three properties it writes itself and
    none of the shared shape. *)
Theorem toDto_unhandled_type (a : Artifact.t) :
  Artifact.type a <> APP ->
  dom (toDto a) = {[ "object"; "thread_id"; "message_id" ]}
  /\ toDto a !! "object" = Some (VString "artifact")
  /\ toDto a !! "thread_id" = Some (VString (Artifact.thread a))
  /\ toDto a !! "message_id" = Some (VString (Artifact.message a))
  /\ toDto a !! "id" = None
  /\ toDto a !! "share_url" = None.
Proof.
  intros Ht. unfold toDto, toSharedDto.
  destruct (decide (Artifact.type a = APP)); [done|].
  cbn [spread nullish]. split.
  - unfold literal, write; cbn [foldl fst snd].
    rewrite !dom_insert_L, dom_empty_L. set_solver.
  - repeat apply conj; property.
Qed.

(** ** [getSecret] *)

Lemma encode_length (bs : list byte) :
  String.length (Base64Url.encode bs) = (4 * length bs + 2) / 3.
Proof.
  induction bs as [|a|a b|a b c l IH] using Base64UrlFacts.list_ind3.
  - reflexivity.
  - reflexivity.
  - reflexivity.
  - cbn [Base64Url.encode String.length length]. rewrite IH.
    replace (4 * S (S (S (length l))) + 2) with (4 * length l + 2 + 4 * 3) by lia.
    rewrite Nat.div_add by lia. lia.
Qed.

(** X16: [getSecret] always returns: a text of 32 characters, all from the
    url-safe alphabet (so without padding), the encoding of the next 24
    bytes of the random source; it moves the source on by 24 bytes and
    changes nothing else. *)
Theorem getSecret_shape (w : World) :
  exists secret,
    getSecret w = (Ok secret, set_consumed (consumed w + 24) w)
    /\ secret = Base64Url.encode (map (entropy w) (seq (consumed w) 24))
    /\ String.length secret = 32
    /\ Base64Url.all_url_safe secret = true
    /\ nextDraw (snd (getSecret w)) = map (entropy w) (seq (consumed w + 24) 24).
Proof.
  exists (Base64Url.encode (nextDraw w)).
  destruct (secret_shape w) as (Hlen & Hsafe & _).
  repeat apply conj; try reflexivity; assumption.
Qed.

(** X17: the encoding loses nothing: two calls of [getSecret] return the
    same text exactly when they drew the same bytes. *)
Theorem getSecret_injective (w1 w2 : World) :
  fst (getSecret w1) = fst (getSecret w2) <-> nextDraw w1 = nextDraw w2.
Proof.
  rewrite !getSecret_run. cbn [fst]. split.
  - intros E. apply Base64UrlFacts.encode_inj.
    assert (I : forall x y : string, @Ok string x = Ok y -> x = y)
      by (intros x y H; injection H as H; exact H).
    by apply I.
  - by intros ->.
Qed.

(** X18: the text written for [n] bytes has [(4 n + 2) / 3] characters, all
    from the url-safe alphabet: every three bytes give four characters and a
    rest of one or two bytes gives two or three, with no padding. *)
Theorem base64url_length (bs : list byte) :
  String.length (Base64Url.encode bs) = (4 * length bs + 2) / 3
  /\ Base64Url.all_url_safe (Base64Url.encode bs) = true.
Proof. split; [apply encode_length | apply Base64UrlFacts.encode_url_safe]. Qed.

(** ** What the service keeps true of the store *)

Lemma wellformed_insert (w : World) (k : string) (a : Artifact.t) :
  wellformed w ->
  Artifact.type a = APP -> Artifact.accessSecret a <> val "" ->
  map_Forall
    (fun _ a => Artifact.type a = APP /\ Artifact.accessSecret a <> val "")
    (<[k := a]> (artifacts w)).
Proof. intros W Ht Hs. by apply map_Forall_insert_2. Qed.

Lemma createArtifact_wellformed (w : World) (body : ArtifactCreateBody) :
  wellformed w -> wellformed (snd (createArtifact body w)).
Proof.
  intros W. unfold createArtifact, bind, findOneOrFail.
  destruct (threads w !! create_thread_id body) as [thread|]; [|done].
  destruct (messages w !! create_message_id body) as [message|]; [|done].
  destruct (bool_decide (Message.thread message = Thread.id thread)); [|done].
  destruct (bool_decide (create_type body = APP)); [|done].
  destruct (secret_shape w) as (_ & _ & Hne).
  destruct (strict_true (create_shared body)).
  - apply (wellformed_insert w); [done | reflexivity |].
    intros E. apply val_inj in E. by apply Hne.
  - apply (wellformed_insert w); [done | reflexivity | discriminate].
Qed.

Lemma updateArtifact_wellformed (w : World) (req : ArtifactUpdate) :
  wellformed w -> wellformed (snd (updateArtifact req w)).
Proof.
  intros W.
  destruct (artifacts w !! update_artifact_id req) as [a|] eqn:Hl.
  - destruct (passes defaultFilters w a) eqn:Hp.
    + rewrite (updateArtifact_found w req a Hl Hp).
      destruct (W _ _ Hl) as [Ht Hs].
      destruct (secret_shape w) as (_ & _ & Hne).
      apply (wellformed_insert w); [done | |].
      * unfold updatedArtifact. by destruct (update_shared req) as [| |[|]].
      * unfold updatedArtifact.
        destruct (update_shared req) as [| |[|]];
          first [exact Hs | discriminate
                | intros E; apply val_inj in E; by apply Hne].
    + unfold updateArtifact, bind.
      by rewrite (findOneOrFail_rejected _ _ _ _ _ a).
  - unfold updateArtifact, bind. by rewrite findOneOrFail_missing.
Qed.

Lemma deleteArtifact_wellformed (w : World) (artifact_id : string) :
  wellformed w -> wellformed (snd (deleteArtifact artifact_id w)).
Proof.
  intros W. unfold deleteArtifact, bind, findOneOrFail.
  destruct (artifacts w !! artifact_id) as [a|] eqn:Hl; [|done].
  destruct (passes defaultFilters w a); [|done].
  destruct (W _ _ Hl) as [Ht Hs].
  by apply (wellformed_insert w).
Qed.

(** X19: a store in which every artifact is of type APP and no secret is the
    empty string stays so under [createArtifact], [updateArtifact] and
    [deleteArtifact], whatever the request. *)
Theorem service_keeps_wellformed (w : World) :
  wellformed w ->
  (forall body, wellformed (snd (createArtifact body w)))
  /\ (forall req, wellformed (snd (updateArtifact req w)))
  /\ (forall artifact_id, wellformed (snd (deleteArtifact artifact_id w))).
Proof.
  intros W. repeat apply conj.
  - intros body. by apply createArtifact_wellformed.
  - intros req. by apply updateArtifact_wellformed.
  - intros artifact_id. by apply deleteArtifact_wellformed.
Qed.

(** X20: in such a store the link tells whether the artifact is shared: the
    DTO [readArtifact] returns has a [share_url], and it is the empty string
    exactly when the artifact has no [accessSecret]. *)
Theorem share_url_tells_shared (w : World) (artifact_id : string) (a : Artifact.t) :
  wellformed w ->
  artifacts w !! artifact_id = Some a ->
  passes defaultFilters w a = true ->
  exists url,
    returned "share_url" (fst (readArtifact artifact_id w)) = Some (VString url)
    /\ (url = "" <-> absent (Artifact.accessSecret a)).
Proof.
  intros W Hl Hp. destruct (W _ _ Hl) as [Ht Hs].
  rewrite (readArtifact_found w artifact_id a Hl Hp). cbn [fst returned].
  rewrite toDto_share_url, sharedOf_share_url by done.
  eexists. split; [reflexivity|].
  destruct (Artifact.accessSecret a) as [| |s]; cbn [truthy interpolate].
  - split; [by left | done].
  - split; [by right | done].
  - destruct (decide (s = "")) as [->|Hn]; [done|].
    split; [discriminate|]. intros [E|E]; discriminate.
Qed.


(** ** The further statements at the sample data *)

Lemma createArtifact_missing_parent_witness :
  threads sampleWorld !! "t9" = None
  /\ createArtifact (sampleCreate "t9" (val true)) sampleWorld
     = (Throw (notFound "Thread"), sampleWorld).
Proof.
  assert (Ht : threads sampleWorld !! "t9" = None) by reflexivity.
  split; [exact Ht|].
  destruct (createArtifact_missing_parent sampleWorld (sampleCreate "t9" (val true))
              (or_introl Ht)) as (e & R & _ & E & _).
  rewrite R. by rewrite (E Ht).
Defined.

Lemma createArtifact_unsupported_type_witness :
  let body :=
    mkArtifactCreateBody "t1" "m1" "chart" undefined undefined (val true)
      undefined undefined in
  threads sampleWorld !! "t1" = Some (Thread.mk "t1")
  /\ messages sampleWorld !! "m1" = Some (Message.mk "m1" "t1")
  /\ create_type body <> APP
  /\ createArtifact body sampleWorld
     = (Throw (mkAPIError "Artifact type not supported" INVALID_INPUT), sampleWorld).
Proof.
  intros body.
  assert (Ht : threads sampleWorld !! "t1" = Some (Thread.mk "t1")) by reflexivity.
  assert (Hm : messages sampleWorld !! "m1" = Some (Message.mk "m1" "t1"))
    by reflexivity.
  assert (Hty : create_type body <> APP) by discriminate.
  split; [exact Ht|]. split; [exact Hm|]. split; [exact Hty|].
  exact (createArtifact_unsupported_type sampleWorld body (Thread.mk "t1")
           (Message.mk "m1" "t1") Ht Hm eq_refl Hty).
Defined.

Lemma createArtifact_echo_witness :
  keyed sampleWorld
  /\ threads sampleWorld !! "t1" = Some (Thread.mk "t1")
  /\ messages sampleWorld !! "m1" = Some (Message.mk "m1" "t1")
  /\ exists dto,
       fst (createArtifact (sampleCreate "t1" undefined) sampleWorld) = Ok dto
       /\ dto !! "thread_id" = Some (VString "t1")
       /\ dto !! "source_code" = Some (VString "print(1)")
       /\ dto !! "created_at" = Some (VNumber 1700000000).
Proof.
  assert (K : keyed sampleWorld)
    by (repeat apply conj; refine (bool_decide_unpack _ _); vm_compute; exact I).
  assert (Ht : threads sampleWorld !! "t1" = Some (Thread.mk "t1")) by reflexivity.
  assert (Hm : messages sampleWorld !! "m1" = Some (Message.mk "m1" "t1"))
    by reflexivity.
  split; [exact K|]. split; [exact Ht|]. split; [exact Hm|].
  destruct (createArtifact_echo sampleWorld (sampleCreate "t1" undefined)
              (Thread.mk "t1") (Message.mk "m1" "t1") K Ht Hm eq_refl eq_refl)
    as (dto & R & _ & _ & _ & T & _ & S & _ & _ & _ & C).
  exists dto. split; [exact R|]. split; [exact T|]. split; [exact S | exact C].
Defined.

Lemma create_then_read_witness :
  threads sampleWorld !! "t1" = Some (Thread.mk "t1")
  /\ messages sampleWorld !! "m1" = Some (Message.mk "m1" "t1")
  /\ principalAccess sampleWorld (fresh_string "art_" (artifacts sampleWorld)) = true
  /\ exists dto,
       fst (createArtifact (sampleCreate "t1" (val true)) sampleWorld) = Ok dto
       /\ readArtifact (fresh_string "art_" (artifacts sampleWorld))
            (snd (createArtifact (sampleCreate "t1" (val true)) sampleWorld))
          = (Ok dto, snd (createArtifact (sampleCreate "t1" (val true)) sampleWorld)).
Proof.
  assert (Ht : threads sampleWorld !! "t1" = Some (Thread.mk "t1")) by reflexivity.
  assert (Hm : messages sampleWorld !! "m1" = Some (Message.mk "m1" "t1"))
    by reflexivity.
  split; [exact Ht|]. split; [exact Hm|]. split; [reflexivity|].
  exact (create_then_read sampleWorld (sampleCreate "t1" (val true))
           (Thread.mk "t1") (Message.mk "m1" "t1") Ht Hm eq_refl eq_refl eq_refl).
Defined.

Lemma create_then_read_shared_witness :
  threads sampleWorld !! "t1" = Some (Thread.mk "t1")
  /\ messages sampleWorld !! "m1" = Some (Message.mk "m1" "t1")
  /\ exists shared,
       readSharedArtifact (Base64Url.encode (nextDraw sampleWorld))
         (fresh_string "art_" (artifacts sampleWorld))
         (snd (createArtifact (sampleCreate "t1" (val true)) sampleWorld))
       = (Ok (val shared),
          snd (createArtifact (sampleCreate "t1" (val true)) sampleWorld)).
Proof.
  assert (Ht : threads sampleWorld !! "t1" = Some (Thread.mk "t1")) by reflexivity.
  assert (Hm : messages sampleWorld !! "m1" = Some (Message.mk "m1" "t1"))
    by reflexivity.
  split; [exact Ht|]. split; [exact Hm|].
  destruct (create_then_read_shared sampleWorld (sampleCreate "t1" (val true))
              (Thread.mk "t1") (Message.mk "m1" "t1") Ht Hm eq_refl eq_refl)
    as (Hyes & _).
  destruct (Hyes eq_refl) as (a & shared & _ & _ & R & _).
  exists shared. exact R.
Defined.

Lemma createArtifact_frame_witness :
  artifacts sampleWorld !! "art_1" = Some sampleArtifact
  /\ artifacts (snd (createArtifact (sampleCreate "t1" (val true)) sampleWorld))
       !! "art_1" = Some sampleArtifact.
Proof.
  assert (Hl : artifacts sampleWorld !! "art_1" = Some sampleArtifact)
    by reflexivity.
  split; [exact Hl|].
  exact (proj1 (createArtifact_frame sampleWorld (sampleCreate "t1" (val true))
                  "art_1" sampleArtifact Hl)).
Defined.

Lemma shared_read_bypasses_principal_witness :
  artifacts guestWorld !! "art_1" = Some sampleArtifact
  /\ principalAccess guestWorld (Artifact.id sampleArtifact) = false
  /\ readArtifact "art_1" guestWorld = (Throw (notFound "Artifact"), guestWorld)
  /\ readSharedArtifact "s3cr3t" "art_1" guestWorld
     = (Ok (toSharedDto sampleArtifact), guestWorld).
Proof.
  assert (Hl : artifacts guestWorld !! "art_1" = Some sampleArtifact)
    by reflexivity.
  split; [exact Hl|]. split; [reflexivity|].
  exact (shared_read_bypasses_principal guestWorld "art_1" "s3cr3t" sampleArtifact
           Hl eq_refl eq_refl eq_refl).
Defined.

Lemma updateArtifact_not_found_witness :
  (forall a, artifacts guestWorld !! "art_1" = Some a ->
             Artifact.is_deleted a = true
             \/ principalAccess guestWorld (Artifact.id a) = false)
  /\ updateArtifact (sampleUpdate (val true)) guestWorld
     = (Throw (notFound "Artifact"), guestWorld).
Proof.
  assert (H : forall a, artifacts guestWorld !! "art_1" = Some a ->
                        Artifact.is_deleted a = true
                        \/ principalAccess guestWorld (Artifact.id a) = false)
    by (intros a _; right; reflexivity).
  split; [exact H|].
  exact (updateArtifact_not_found guestWorld (sampleUpdate (val true)) H).
Defined.

Lemma update_then_read_witness :
  keyed sampleWorld
  /\ artifacts sampleWorld !! "art_1" = Some sampleArtifact
  /\ passes defaultFilters sampleWorld sampleArtifact = true
  /\ readArtifact "art_1" (snd (updateArtifact (sampleUpdate (val true)) sampleWorld))
     = (fst (updateArtifact (sampleUpdate (val true)) sampleWorld),
        snd (updateArtifact (sampleUpdate (val true)) sampleWorld)).
Proof.
  assert (K : keyed sampleWorld)
    by (repeat apply conj; refine (bool_decide_unpack _ _); vm_compute; exact I).
  assert (Hl : artifacts sampleWorld !! "art_1" = Some sampleArtifact)
    by reflexivity.
  assert (Hp : passes defaultFilters sampleWorld sampleArtifact = true)
    by reflexivity.
  split; [exact K|]. split; [exact Hl|]. split; [exact Hp|].
  exact (update_then_read sampleWorld (sampleUpdate (val true)) sampleArtifact
           K Hl Hp).
Defined.

Lemma update_unshare_revokes_witness :
  keyed sampleWorld
  /\ artifacts sampleWorld !! "art_1" = Some sampleArtifact
  /\ passes defaultFilters sampleWorld sampleArtifact = true
  /\ readSharedArtifact "s3cr3t" "art_1"
       (snd (updateArtifact (sampleUpdate (val false)) sampleWorld))
     = (Throw (notFound "Artifact"),
        snd (updateArtifact (sampleUpdate (val false)) sampleWorld)).
Proof.
  assert (K : keyed sampleWorld)
    by (repeat apply conj; refine (bool_decide_unpack _ _); vm_compute; exact I).
  assert (Hl : artifacts sampleWorld !! "art_1" = Some sampleArtifact)
    by reflexivity.
  assert (Hp : passes defaultFilters sampleWorld sampleArtifact = true)
    by reflexivity.
  split; [exact K|]. split; [exact Hl|]. split; [exact Hp|].
  exact (proj1 (update_unshare_revokes sampleWorld (sampleUpdate (val false))
                  sampleArtifact K Hl Hp eq_refl) "s3cr3t").
Defined.


Lemma deleteArtifact_not_found_witness :
  (forall a, artifacts deletedWorld !! "art_1" = Some a ->
             Artifact.is_deleted a = true
             \/ principalAccess deletedWorld (Artifact.id a) = false)
  /\ deleteArtifact "art_1" deletedWorld
     = (Throw (notFound "Artifact"), deletedWorld).
Proof.
  assert (H : forall a, artifacts deletedWorld !! "art_1" = Some a ->
                        Artifact.is_deleted a = true
                        \/ principalAccess deletedWorld (Artifact.id a) = false).
  { intros a E.
    assert (L : artifacts deletedWorld !! "art_1"
                = Some (Artifact.set_deletedAt (val 1700000000500%Z) sampleArtifact))
      by reflexivity.
    rewrite L in E. injection E as <-. left. reflexivity. }
  split; [exact H|].
  exact (deleteArtifact_not_found deletedWorld "art_1" H).
Defined.

Lemma delete_then_nothing_witness :
  keyed sampleWorld
  /\ artifacts sampleWorld !! "art_1" = Some sampleArtifact
  /\ passes defaultFilters sampleWorld sampleArtifact = true
  /\ deleteArtifact "art_1" (snd (deleteArtifact "art_1" sampleWorld))
     = (Throw (notFound "Artifact"), snd (deleteArtifact "art_1" sampleWorld))
  /\ readSharedArtifact "s3cr3t" "art_1" (snd (deleteArtifact "art_1" sampleWorld))
     = (Throw (notFound "Artifact"), snd (deleteArtifact "art_1" sampleWorld)).
Proof.
  assert (K : keyed sampleWorld)
    by (repeat apply conj; refine (bool_decide_unpack _ _); vm_compute; exact I).
  assert (Hl : artifacts sampleWorld !! "art_1" = Some sampleArtifact)
    by reflexivity.
  assert (Hp : passes defaultFilters sampleWorld sampleArtifact = true)
    by reflexivity.
  split; [exact K|]. split; [exact Hl|]. split; [exact Hp|].
  destruct (delete_then_nothing sampleWorld "art_1" sampleArtifact K Hl Hp)
    as (D & _ & S & _).
  split; [exact D | exact (S "s3cr3t")].
Defined.

Lemma toDto_unhandled_type_witness :
  Artifact.type chartArtifact <> APP
  /\ dom (toDto chartArtifact) = {[ "object"; "thread_id"; "message_id" ]}.
Proof.
  assert (Ht : Artifact.type chartArtifact <> APP) by discriminate.
  split; [exact Ht|].
  exact (proj1 (toDto_unhandled_type chartArtifact Ht)).
Defined.

Lemma service_keeps_wellformed_witness :
  wellformed sampleWorld
  /\ wellformed (snd (updateArtifact (sampleUpdate (val true)) sampleWorld)).
Proof.
  assert (W : wellformed sampleWorld)
    by (refine (bool_decide_unpack _ _); vm_compute; exact I).
  split; [exact W|].
  destruct (service_keeps_wellformed sampleWorld W) as (_ & U & _).
  exact (U (sampleUpdate (val true))).
Defined.

Lemma share_url_tells_shared_witness :
  wellformed sampleWorld
  /\ artifacts sampleWorld !! "art_1" = Some sampleArtifact
  /\ passes defaultFilters sampleWorld sampleArtifact = true
  /\ exists url,
       returned "share_url" (fst (readArtifact "art_1" sampleWorld))
       = Some (VString url)
       /\ (url = "" <-> absent (Artifact.accessSecret sampleArtifact)).
Proof.
  assert (W : wellformed sampleWorld)
    by (refine (bool_decide_unpack _ _); vm_compute; exact I).
  assert (Hl : artifacts sampleWorld !! "art_1" = Some sampleArtifact)
    by reflexivity.
  assert (Hp : passes defaultFilters sampleWorld sampleArtifact = true)
    by reflexivity.
  split; [exact W|]. split; [exact Hl|]. split; [exact Hp|].
  exact (share_url_tells_shared sampleWorld "art_1" sampleArtifact W Hl Hp).
Defined.

